(** * Kleinanzeigen seller scraper: a shallow embedding of [scraper.py]

    The development follows [src/kleinanzeigen_scraper/scraper.py]:
    [parse_listing_links], [extract_total_count], [scrape_seller_listings]
    and [create_download_file].

    Conventions.
    - A Python [str] is a [string]; a character is a code point below 256,
      so that the classes [\d] and [\s] of [re] and the stripping done by
      [urllib.parse] are the ones Python uses on that range.
    - A Python [int] is a [Z].
    - An exception is a value of [exn]; fallible code returns [result].
    - The libraries ([bs4], [requests], [pandas], [openpyxl], [docx],
      and the [ipaddress] and [unicodedata] calls inside [urllib.parse])
      are type classes; the functions and the statements are parametric
      in their instances. *)

From Stdlib Require Import ZArith Lia Ascii String List Bool.
From Stdlib Require Import DecimalString Floats.
From stdpp Require Import base decidable option list sets gmap strings.

Local Open Scope string_scope.
Local Open Scope list_scope.
Local Open Scope Z_scope.

(** ** Strings as Python uses them *)

Module Str.

(** [sub in s] *)
Fixpoint contains (sub s : string) : bool :=
  String.prefix sub s ||
  match s with
  | EmptyString => false
  | String _ s' => contains sub s'
  end.

(** [s.startswith(p)] *)
Definition startswith (p s : string) : bool := String.prefix p s.

(** [c in s] for a single character *)
Fixpoint mem (c : ascii) (s : string) : bool :=
  match s with
  | EmptyString => false
  | String d s' => Ascii.eqb c d || mem c s'
  end.

(** [s.split(sep, 1)] for a one-character separator: the text before the
    first [sep] and, when there is one, the text after it. *)
Fixpoint partition (sep : ascii) (s : string) : string * option string :=
  match s with
  | EmptyString => (EmptyString, None)
  | String c s' =>
      if Ascii.eqb c sep then (EmptyString, Some s')
      else let '(a, b) := partition sep s' in (String c a, b)
  end.

(** [s.split(sep)] for a one-character separator; never empty. *)
Fixpoint split (sep : ascii) (s : string) : list string :=
  match s with
  | EmptyString => [EmptyString]
  | String c s' =>
      if Ascii.eqb c sep then EmptyString :: split sep s'
      else match split sep s' with
           | [] => [String c EmptyString]
           | w :: ws => String c w :: ws
           end
  end.

(** [sep.join(parts)] *)
Fixpoint join (sep : string) (parts : list string) : string :=
  match parts with
  | [] => EmptyString
  | [p] => p
  | p :: ps => p +:+ sep +:+ join sep ps
  end.

(** [s.replace(c, "")] for a single character *)
Fixpoint remove (c : ascii) (s : string) : string :=
  match s with
  | EmptyString => EmptyString
  | String d s' => if Ascii.eqb c d then remove c s' else String d (remove c s')
  end.

(** [s.lstrip(chars)] *)
Fixpoint lstrip (chars : ascii -> bool) (s : string) : string :=
  match s with
  | EmptyString => EmptyString
  | String c s' => if chars c then lstrip chars s' else s
  end.

(** the number of leading characters that do not satisfy [p] *)
Fixpoint find_if (p : ascii -> bool) (s : string) : nat :=
  match s with
  | EmptyString => O
  | String c s' => if p c then O else S (find_if p s')
  end.

(** [s.find(c)] for a single character; [None] for -1 *)
Fixpoint find (c : ascii) (s : string) : option nat :=
  match s with
  | EmptyString => None
  | String d s' => if Ascii.eqb c d then Some O else option_map S (find c s')
  end.

(** [s.rfind(c)] for a single character; [None] for -1 *)
Fixpoint rfind (c : ascii) (s : string) : option nat :=
  match s with
  | EmptyString => None
  | String d s' =>
      match rfind c s' with
      | Some i => Some (S i)
      | None => if Ascii.eqb c d then Some O else None
      end
  end.

Fixpoint rev_append (s acc : string) : string :=
  match s with
  | EmptyString => acc
  | String c s' => rev_append s' (String c acc)
  end.

(** [s.strip(chars)] *)
Definition strip (chars : ascii -> bool) (s : string) : string :=
  let rev s := rev_append s EmptyString in
  rev (lstrip chars (rev (lstrip chars s))).

Definition code (c : ascii) : nat := nat_of_ascii c.

Definition between (lo hi : nat) (c : ascii) : bool :=
  (lo <=? code c)%nat && (code c <=? hi)%nat.

(** the class [\d] of [re] on [str] patterns *)
Definition is_digit (c : ascii) : bool := between 48 57 c.

(** the class [\s] of [re] on [str] patterns *)
Definition is_space (c : ascii) : bool :=
  between 9 13 c || between 28 32 c || (code c =? 133)%nat || (code c =? 160)%nat.

Definition is_upper (c : ascii) : bool := between 65 90 c.
Definition is_lower (c : ascii) : bool := between 97 122 c.

(** [c.isascii() and c.isalpha()] *)
Definition is_ascii_alpha (c : ascii) : bool := is_upper c || is_lower c.

Definition lower_char (c : ascii) : ascii :=
  if is_upper c then ascii_of_nat (code c + 32) else c.

(** [s.lower()] *)
Fixpoint lower (s : string) : string :=
  match s with
  | EmptyString => EmptyString
  | String c s' => String (lower_char c) (lower s')
  end.

Fixpoint forallb (p : ascii -> bool) (s : string) : bool :=
  match s with
  | EmptyString => true
  | String c s' => p c && forallb p s'
  end.

(** [s[n:]] *)
Fixpoint drop (n : nat) (s : string) : string :=
  match n, s with
  | O, _ => s
  | S _, EmptyString => EmptyString
  | S n', String _ s' => drop n' s'
  end.

(** [s[:n]] *)
Fixpoint take (n : nat) (s : string) : string :=
  match n, s with
  | O, _ => EmptyString
  | S _, EmptyString => EmptyString
  | S n', String c s' => String c (take n' s')
  end.

(** the value of a decimal digit *)
Definition digit_value (c : ascii) : Z := Z.of_nat (code c) - 48.

(** [str(n)] for an [int] *)
Definition of_int (n : Z) : string := DecimalString.NilZero.string_of_int (Z.to_int n).

End Str.

(** ** Exceptions and results *)

Inductive exn : Type :=
| ValueError (msg : string)
| ImportError (msg : string)
| HTTPError (status : Z)
| RequestException
| IllegalCharacterError.

Inductive result (A : Type) : Type :=
| Ok (a : A)
| Raise (e : exn).
Arguments Ok {A} a.
Arguments Raise {A} e.

#[global] Instance result_ret : MRet result := fun _ a => Ok a.
#[global] Instance result_bind : MBind result := fun _ _ k r =>
  match r with
  | Ok a => k a
  | Raise e => Raise e
  end.

(** ** The regular expression of [extract_total_count]

    [re] is a backtracking matcher with greedy quantifiers.  The pattern
    [(\d{1,5})\s+Anzeigen\s+online] is a sequence of character-class
    repetitions and literals, which is all the matcher below covers. *)

Module Re.

Inductive atom : Type :=
| Rep (cls : ascii -> bool) (lo : nat) (hi : option nat)
| Lit (s : string).

Definition regex := list atom.

(** how many leading characters of [s] a greedy repetition can take *)
Fixpoint greedy (cls : ascii -> bool) (hi : option nat) (s : string) : nat :=
  match s with
  | EmptyString => O
  | String c s' =>
      match hi with
      | Some O => O
      | Some (S h) => if cls c then S (greedy cls (Some h) s') else O
      | None => if cls c then S (greedy cls None s') else O
      end
  end.

(** try [k], [k-1], ..., [lo] repetitions, the longest first *)
Fixpoint backtrack (rest : string -> option (list string)) (lo : nat)
  (s : string) (k : nat) : option (list string) :=
  if (k <? lo)%nat then None
  else match rest (Str.drop k s) with
       | Some groups => Some (Str.take k s :: groups)
       | None => match k with
                 | O => None
                 | S k' => backtrack rest lo s k'
                 end
       end.

(** match the atoms at the start of [s]; the text each atom consumed *)
Fixpoint match_here (r : regex) (s : string) : option (list string) :=
  match r with
  | [] => Some []
  | Lit l :: r' =>
      if String.prefix l s
      then option_map (cons l) (match_here r' (Str.drop (String.length l) s))
      else None
  | Rep cls lo hi :: r' =>
      backtrack (match_here r') lo s (greedy cls hi s)
  end.

(** [re.search]: the leftmost position at which the pattern matches *)
Fixpoint search (r : regex) (s : string) : option (list string) :=
  match match_here r s with
  | Some groups => Some groups
  | None => match s with
            | EmptyString => None
            | String _ s' => search r s'
            end
  end.

(** What it means for a pattern to match at the start of a text, with
    the text each atom takes. *)
Inductive matches : regex -> string -> list string -> Prop :=
| matches_nil s : matches [] s []
| matches_lit l r s groups :
    matches r s groups -> matches (Lit l :: r) (l +:+ s) (l :: groups)
| matches_rep cls lo hi r w s groups :
    Str.forallb cls w = true ->
    (lo <= String.length w)%nat ->
    (forall h, hi = Some h -> (String.length w <= h)%nat) ->
    matches r s groups ->
    matches (Rep cls lo hi :: r) (w +:+ s) (w :: groups).

End Re.

(** [int(s)] for a text of decimal digits; anything else is the
    [ValueError] the source catches. *)
Fixpoint int_digits (acc : Z) (s : string) : option Z :=
  match s with
  | EmptyString => Some acc
  | String c s' =>
      if Str.is_digit c then int_digits (10 * acc + Str.digit_value c) s' else None
  end.

Definition int_of_str (s : string) : option Z :=
  match s with
  | EmptyString => None
  | _ => int_digits 0 s
  end.

(** [r"(\d{1,5})\s+Anzeigen\s+online"] *)
Definition count_pattern : Re.regex :=
  [ Re.Rep Str.is_digit 1 (Some 5%nat);
    Re.Rep Str.is_space 1 None;
    Re.Lit "Anzeigen";
    Re.Rep Str.is_space 1 None;
    Re.Lit "online" ].

Definition extract_total_count (html : string) : option Z :=
  match Re.search count_pattern html with
  | Some (group1 :: _) => int_of_str group1
  | _ => None
  end.

(** ** [math.ceil(total_ads / 25)] in binary64

    [/] on two [int]s is a binary64 division; [math.ceil] gives back an
    [int].  The operands here stay far below 2^53, where [float(n)] is
    exact and the quotient is never infinite or a NaN. *)

(** [math.ceil] of a finite float, as an exact integer *)
Definition math_ceil (f : float) : Z :=
  match Prim2SF f with
  | S754_finite sign m e =>
      let n := if sign then Z.neg m else Z.pos m in
      if 0 <=? e then n * 2 ^ e else - ((- n) / 2 ^ (- e))
  | _ => 0
  end.

(** [float(n)] for an [int] with [0 <= n < 2^53] *)
Definition float_of_int (n : Z) : float := PrimFloat.of_uint63 (Uint63.of_Z n).

(** [a / b] on [int]s in that range *)
Definition true_div (a b : Z) : float := PrimFloat.div (float_of_int a) (float_of_int b).

(** ** [urllib.parse.urljoin]

    A transcription of CPython 3.11's [urllib/parse.py] for [str]
    arguments.  [_check_bracketed_netloc] validates a bracketed host with
    the [ipaddress] module, and [_checknetloc] normalizes a netloc that
    is not ASCII with [unicodedata]; both libraries are parameters. *)

Module Url.

Class Ipaddress := {
  (** the message of the [ValueError] that [_check_bracketed_netloc]
      raises on this netloc, if it raises *)
  check_bracketed_netloc : string -> option string
}.

Class Unicodedata := {
  (** [unicodedata.normalize('NFKC', s)], as the code points of the
      result: they can lie beyond 255 *)
  normalize_nfkc : string -> list N
}.

Definition uses_relative : list string :=
  [""; "ftp"; "http"; "gopher"; "nntp"; "imap";
   "wais"; "file"; "https"; "shttp"; "mms";
   "prospero"; "rtsp"; "rtspu"; "sftp";
   "svn"; "svn+ssh"; "ws"; "wss"].

Definition uses_netloc : list string :=
  [""; "ftp"; "http"; "gopher"; "nntp"; "telnet";
   "imap"; "wais"; "file"; "mms"; "https"; "shttp";
   "snews"; "prospero"; "rtsp"; "rtspu"; "rsync";
   "svn"; "svn+ssh"; "sftp"; "nfs"; "git"; "git+ssh";
   "ws"; "wss"].

Definition uses_params : list string :=
  [""; "ftp"; "hdl"; "prospero"; "http"; "imap";
   "https"; "shttp"; "rtsp"; "rtspu"; "sip"; "sips";
   "mms"; "sftp"; "tel"].

Definition elem (s : string) (l : list string) : bool :=
  existsb (String.eqb s) l.

Definition scheme_chars (c : ascii) : bool :=
  Str.is_lower c || Str.is_upper c || Str.is_digit c || Str.mem c "+-.".

(** [_WHATWG_C0_CONTROL_OR_SPACE] *)
Definition c0_control_or_space (c : ascii) : bool := (Str.code c <=? 32)%nat.

(** [for b in _UNSAFE_URL_BYTES_TO_REMOVE: url = url.replace(b, "")] *)
Definition remove_unsafe (s : string) : string :=
  Str.remove "010"%char (Str.remove "013"%char (Str.remove "009"%char s)).

Record SplitResult := {
  s_scheme : string; s_netloc : string; s_path : string;
  s_query : string; s_fragment : string }.

Record ParseResult := {
  scheme : string; netloc : string; path : string;
  params : string; query : string; fragment : string }.

(** [_splitnetloc(url, 2)] *)
Definition splitnetloc (url : string) : string * string :=
  let is_delim c := Str.mem c "/?#" in
  let delim := (2 + Str.find_if is_delim (Str.drop 2 url))%nat in
  (Str.take (delim - 2) (Str.drop 2 url), Str.drop delim url).

Definition check_netloc_brackets `{Ipaddress} (netloc : string) : result unit :=
  let has_open := Str.mem "["%char netloc in
  let has_close := Str.mem "]"%char netloc in
  if (has_open && negb has_close) || (has_close && negb has_open)
  then Raise (ValueError "Invalid IPv6 URL")
  else if has_open && has_close
       then match check_bracketed_netloc netloc with
            | Some msg => Raise (ValueError msg)
            | None => Ok tt
            end
       else Ok tt.

(** [s.isascii()] *)
Definition isascii (s : string) : bool :=
  Str.forallb (fun c => (Str.code c <? 128)%nat) s.

(** the code points of a [str] *)
Fixpoint code_points (s : string) : list N :=
  match s with
  | EmptyString => []
  | String c s' => N.of_nat (Str.code c) :: code_points s'
  end.

(** [_checknetloc] *)
Definition checknetloc `{Unicodedata} (netloc : string) : result unit :=
  if String.eqb netloc "" || isascii netloc then Ok tt
  else
    let n := Str.remove "?"%char (Str.remove "#"%char
               (Str.remove ":"%char (Str.remove "@"%char netloc))) in
    let netloc2 := normalize_nfkc n in
    if bool_decide (code_points n = netloc2) then Ok tt
    else if existsb (fun c => existsb (N.eqb (N.of_nat (Str.code c))) netloc2)
              (list_ascii_of_string "/?#@:")
         then Raise (ValueError ("netloc '" +:+ netloc +:+ "' contains invalid "
                                 +:+ "characters under NFKC normalization"))
         else Ok tt.

Definition urlsplit `{Ipaddress} `{Unicodedata} (url scheme : string)
  : result SplitResult :=
  let url := Str.lstrip c0_control_or_space url in
  let scheme := Str.strip c0_control_or_space scheme in
  let url := remove_unsafe url in
  let scheme := remove_unsafe scheme in
  let '(scheme, url) :=
    match Str.find ":"%char url, url with
    | Some (S i), String c0 _ =>
        if Str.is_ascii_alpha c0 && Str.forallb scheme_chars (Str.take (S i) url)
        then (Str.lower (Str.take (S i) url), Str.drop (S (S i)) url)
        else (scheme, url)
    | _, _ => (scheme, url)
    end in
  '(netloc, url) ←
    (if String.prefix "//" url
     then let '(netloc, rest) := splitnetloc url in
          _ ← check_netloc_brackets netloc; Ok (netloc, rest)
     else Ok ("", url));
  let '(url, fragment) :=
    match Str.partition "#"%char url with
    | (a, Some b) => (a, b)
    | (a, None) => (a, "")
    end in
  let '(url, query) :=
    match Str.partition "?"%char url with
    | (a, Some b) => (a, b)
    | (a, None) => (a, "")
    end in
  _ ← checknetloc netloc;
  Ok {| s_scheme := scheme; s_netloc := netloc; s_path := url;
        s_query := query; s_fragment := fragment |}.

(** [_splitparams] *)
Definition splitparams (url : string) : string * string :=
  match Str.rfind "/"%char url with
  | Some slash =>
      match Str.find ";"%char (Str.drop slash url) with
      | Some j => (Str.take (slash + j) url, Str.drop (S (slash + j)) url)
      | None => (url, "")
      end
  | None =>
      match Str.find ";"%char url with
      | Some i => (Str.take i url, Str.drop (S i) url)
      | None =>
          (* [find] gives -1: [url[:-1], url[0:]]; the caller asks for a [;] first *)
          (Str.take (String.length url - 1) url, url)
      end
  end.

Definition urlparse `{Ipaddress} `{Unicodedata} (url scheme : string)
  : result ParseResult :=
  sr ← urlsplit url scheme;
  let '(url, params) :=
    if elem (s_scheme sr) uses_params && Str.mem ";"%char (s_path sr)
    then splitparams (s_path sr)
    else (s_path sr, "") in
  Ok {| scheme := s_scheme sr; netloc := s_netloc sr; path := url;
        params := params; query := s_query sr; fragment := s_fragment sr |}.

Definition nonempty (s : string) : bool := negb (String.eqb s "").

Definition urlunsplit (scheme netloc url query fragment : string) : string :=
  let url :=
    if nonempty netloc
       || (nonempty scheme && elem scheme uses_netloc && negb (String.prefix "//" url))
    then let url := if nonempty url && negb (String.prefix "/" url)
                    then "/" +:+ url else url in
         "//" +:+ netloc +:+ url
    else url in
  let url := if nonempty scheme then scheme +:+ ":" +:+ url else url in
  let url := if nonempty query then url +:+ "?" +:+ query else url in
  let url := if nonempty fragment then url +:+ "#" +:+ fragment else url in
  url.

Definition urlunparse (p : ParseResult) : string :=
  let url := if nonempty (params p) then path p +:+ ";" +:+ params p else path p in
  urlunsplit (scheme p) (netloc p) url (query p) (fragment p).

(** [segments[1:-1] = filter(None, segments[1:-1])] *)
Definition filter_middle (segments : list string) : list string :=
  match segments with
  | [] => []
  | first :: rest =>
      match rest with
      | [] => [first]
      | _ => first :: List.filter nonempty (removelast rest) ++ [List.last rest ""]
      end
  end.

(** the loop over [segments] that resolves [.] and [..] *)
Fixpoint resolve_segments (segments resolved_path : list string) : list string :=
  match segments with
  | [] => resolved_path
  | seg :: segments' =>
      if String.eqb seg ".." then resolve_segments segments' (removelast resolved_path)
      else if String.eqb seg "." then resolve_segments segments' resolved_path
      else resolve_segments segments' (resolved_path ++ [seg])
  end.

Definition urljoin `{Ipaddress} `{Unicodedata} (base url : string) : result string :=
  if negb (nonempty base) then Ok url
  else if negb (nonempty url) then Ok base
  else
    b ← urlparse base "";
    u ← urlparse url (scheme b);
    if negb (String.eqb (scheme u) (scheme b)) || negb (elem (scheme u) uses_relative)
    then Ok url
    else if elem (scheme u) uses_netloc && nonempty (netloc u)
    then Ok (urlunparse u)
    else
      let netloc' := if elem (scheme u) uses_netloc then netloc b else netloc u in
      if negb (nonempty (path u)) && negb (nonempty (params u))
      then
        let query' := if negb (nonempty (query u)) then query b else query u in
        Ok (urlunparse {| scheme := scheme u; netloc := netloc'; path := path b;
                          params := params b; query := query';
                          fragment := fragment u |})
      else
        let base_parts := Str.split "/"%char (path b) in
        let base_parts :=
          if nonempty (List.last base_parts "") then removelast base_parts
          else base_parts in
        let segments :=
          if String.prefix "/" (path u) then Str.split "/"%char (path u)
          else filter_middle (base_parts ++ Str.split "/"%char (path u)) in
        let resolved_path := resolve_segments segments [] in
        let resolved_path :=
          if elem (List.last segments "") ["."; ".."] then resolved_path ++ [""]
          else resolved_path in
        let joined := Str.join "/" resolved_path in
        Ok (urlunparse {| scheme := scheme u; netloc := netloc';
                          path := if nonempty joined then joined else "/";
                          params := params u; query := query u;
                          fragment := fragment u |}).

End Url.

(** ** [parse_listing_links] *)

(** [bs4]: the [href] values of the anchors that
    [BeautifulSoup(html, "html.parser").find_all("a", href=True)] yields,
    in document order. *)
Class Bs4 := {
  find_all_a_href : string -> list string
}.

Definition origin : string := "https://www.kleinanzeigen.de".
Definition listing_marker : string := "/s-anzeige/".

Section ParseListingLinks.
Context `{Url.Ipaddress} `{Bs4} {unicodedata : Url.Unicodedata}.

(** [full_url] for one accepted [href] *)
Definition full_url_of (href : string) : result string :=
  if negb (Str.startswith "http" href) then Url.urljoin origin href
  else Ok href.

(** the [for a in soup.find_all("a", href=True)] loop, on the state
    [(links, seen)] *)
Fixpoint parse_listing_links_loop (anchors : list string)
  (links : list string) (seen : gset string) : result (list string) :=
  match anchors with
  | [] => Ok links
  | href :: anchors' =>
      if negb (Url.nonempty href) then parse_listing_links_loop anchors' links seen
      else if Str.contains listing_marker href then
        full_url ← full_url_of href;
        if decide (full_url ∉ seen)
        then parse_listing_links_loop anchors' (links ++ [full_url]) ({[full_url]} ∪ seen)
        else parse_listing_links_loop anchors' links seen
      else parse_listing_links_loop anchors' links seen
  end.

Definition parse_listing_links (html : string) : result (list string) :=
  parse_listing_links_loop (find_all_a_href html) [] ∅.

End ParseListingLinks.

(** ** [scrape_seller_listings] *)

(** [requests]: a response is its status code and body; [session.get]
    acts on the outside world and may raise. *)
Record Response := {
  status_code : Z;
  text : string
}.

Class Requests (World : Type) := {
  session_get : string -> World -> result Response * World
}.

(** [Response.raise_for_status] *)
Definition raise_for_status (resp : Response) : result unit :=
  if (400 <=? status_code resp) && (status_code resp <? 600)
  then Raise (HTTPError (status_code resp))
  else Ok tt.

(** The world together with the URLs requested so far. *)
Record Net (World : Type) := {
  world : World;
  requested : list string
}.
Arguments world {World} n.
Arguments requested {World} n.

(** How a call ends.  The [while True] loop of the source need not end;
    the embedding runs it on fuel. *)
Inductive outcome : Type :=
| Returned (links : list string)
| Raised (e : exn)
| OutOfFuel.

Section Scrape.
Context `{Url.Ipaddress} `{Bs4} {World : Type} `{Requests World}
  {unicodedata : Url.Unicodedata}.

Definition get (url : string) (n : Net World) : result Response * Net World :=
  let '(r, w) := session_get url (world n) in
  (r, {| world := w; requested := requested n ++ [url] |}).

(** [f"{base_url}?seite={page}"] *)
Definition page_url (base_url : string) (page : Z) : string :=
  base_url +:+ "?seite=" +:+ Str.of_int page.

(** [num_pages and page > num_pages] *)
Definition past_last_page (num_pages : option Z) (page : Z) : bool :=
  match num_pages with
  | Some k => negb (k =? 0) && (k <? page)
  | None => false
  end.

(** [[url for url in links if url not in all_links]] *)
Definition new_links_of (all_links links : list string) : list string :=
  List.filter (fun url => bool_decide (url ∉ all_links)) links.

Inductive step : Type :=
| Next (all_links : list string) (n : Net World)
| Stop (o : outcome) (n : Net World).

(** one pass through the body of the [while True] loop *)
Definition loop_body (base_url : string) (num_pages : option Z)
  (page : Z) (all_links : list string) (n : Net World) : step :=
  if past_last_page num_pages page then Stop (Returned all_links) n
  else
    match get (page_url base_url page) n with
    | (Raise e, n') => Stop (Raised e) n'
    | (Ok r, n') =>
        if negb (status_code r =? 200) then Stop (Returned all_links) n'
        else match parse_listing_links (text r) with
             | Raise e => Stop (Raised e) n'
             | Ok links =>
                 match new_links_of all_links links with
                 | [] => Stop (Returned all_links) n'
                 | new_links => Next (all_links ++ new_links) n'
                 end
             end
    end.

Fixpoint pages_loop (fuel : nat) (base_url : string) (num_pages : option Z)
  (page : Z) (all_links : list string) (n : Net World) : outcome * Net World :=
  match fuel with
  | O => (OutOfFuel, n)
  | S fuel' =>
      match loop_body base_url num_pages page all_links n with
      | Stop o n' => (o, n')
      | Next all_links' n' =>
          pages_loop fuel' base_url num_pages (page + 1) all_links' n'
      end
  end.

(** [base_url.split("?")[0]] when there is a [?] *)
Definition strip_query (base_url : string) : string :=
  if Str.mem "?"%char base_url
  then List.hd "" (Str.split "?"%char base_url)
  else base_url.

(** [num_pages]: [None], or [math.ceil(total_ads / 25)] for a truthy count *)
Definition num_pages_of (total_ads : option Z) : option Z :=
  match total_ads with
  | Some t => if t =? 0 then None else Some (math_ceil (true_div t 25))
  | None => None
  end.

Definition scrape_seller_listings (fuel : nat) (base_url : string)
  (n : Net World) : outcome * Net World :=
  let base_url := strip_query base_url in
  match get base_url n with
  | (Raise e, n') => (Raised e, n')
  | (Ok resp, n') =>
      match raise_for_status resp with
      | Raise e => (Raised e, n')
      | Ok _ =>
          let first_html := text resp in
          match parse_listing_links first_html with
          | Raise e => (Raised e, n')
          | Ok all_links =>
              let total_ads := extract_total_count first_html in
              let num_pages := num_pages_of total_ads in
              pages_loop fuel base_url num_pages 2 all_links n'
          end
      end
  end.

End Scrape.

(** ** [create_download_file] *)

(** [pandas], [openpyxl] and [python-docx]: what they write for a list
    of links or what they raise on it, and whether
    [from docx import Document] succeeds. *)
Class Export := {
  (** [pd.DataFrame({'Listing URL': links}).to_csv(index=False)] *)
  to_csv : list string -> result string;
  (** [pd.DataFrame({'Listing URL': links}).to_excel(buffer, index=False,
      engine='openpyxl')], and what the buffer holds then *)
  to_excel : list string -> result (list Byte.byte);
  docx_installed : bool;
  (** [Document()], the heading, a paragraph for every link,
      [doc.save(buffer)], and what the buffer holds then *)
  docx_save : list string -> result (list Byte.byte)
}.

(** [s.encode("utf-8")] on code points below 256 *)
Fixpoint encode_utf8 (s : string) : list Byte.byte :=
  match s with
  | EmptyString => []
  | String c s' =>
      let n := Str.code c in
      if (n <? 128)%nat then byte_of_ascii c :: encode_utf8 s'
      else byte_of_ascii (ascii_of_nat (192 + n / 64))
           :: byte_of_ascii (ascii_of_nat (128 + n mod 64))
           :: encode_utf8 s'
  end.

Definition mime_txt : string := "text/plain".
Definition mime_csv : string := "text/csv".
Definition mime_xlsx : string :=
  "application/vnd.openxmlformats-officedocument.spreadsheetml.sheet".
Definition mime_docx : string :=
  "application/vnd.openxmlformats-officedocument.wordprocessingml.document".

Definition docx_missing_message : string :=
  "python-docx ist nicht installiert. Bitte f" +:+ String "252"%char "gen Sie es zu Ihren "
  +:+ "Abh" +:+ String "228"%char "ngigkeiten hinzu, wenn Sie das DOCX-Format verwenden m"
  +:+ String "246"%char "chten.".

Definition create_download_file `{Export} (links : list string) (file_type : string)
  : result (string * list Byte.byte) :=
  if String.eqb file_type "txt" then
    let content := Str.join (String "010"%char "") links in
    Ok (mime_txt, encode_utf8 content)
  else if String.eqb file_type "csv" then
    csv_str ← to_csv links;
    Ok (mime_csv, encode_utf8 csv_str)
  else if String.eqb file_type "xlsx" then
    data ← to_excel links;
    Ok (mime_xlsx, data)
  else if String.eqb file_type "docx" then
    if docx_installed then data ← docx_save links; Ok (mime_docx, data)
    else Raise (ImportError docx_missing_message)
  else Raise (ValueError ("Unsupported file type: " +:+ file_type)).

(** ** Notions the statements use *)


(** A status of the 2xx class. *)
Definition is_success (status : Z) : bool := (200 <=? status) && (status <? 300).

(** The first occurrence of every element, in order. *)
Fixpoint first_occurrences (l : list string) : list string :=
  match l with
  | [] => []
  | x :: l' => x :: List.filter (fun y => negb (String.eqb y x)) (first_occurrences l')
  end.

(** An anchor the loop of [parse_listing_links] accepts. *)
Definition accepted (href : string) : bool :=
  Url.nonempty href && Str.contains listing_marker href.

(** The count phrase at the start of a text: one to five digits, white
    space, [Anzeigen], white space, [online]. *)
Definition count_phrase_at_start (s : string) : Prop :=
  ∃ digits ws1 ws2 post : string,
    s = digits +:+ ws1 +:+ "Anzeigen" +:+ ws2 +:+ "online" +:+ post
    ∧ Str.forallb Str.is_digit digits = true
    ∧ (1 ≤ String.length digits ≤ 5)%nat
    ∧ Str.forallb Str.is_space ws1 = true ∧ ws1 ≠ ""
    ∧ Str.forallb Str.is_space ws2 = true ∧ ws2 ≠ "".

(** The count phrase somewhere in a text. *)
Definition count_phrase_occurs (s : string) : Prop :=
  ∃ pre suffix : string, s = pre +:+ suffix ∧ count_phrase_at_start suffix.

(** [p] holds of [lo], [lo + 1], ..., [fuel] values in all. *)
Fixpoint forallb_from (fuel : nat) (lo : Z) (p : Z -> bool) : bool :=
  match fuel with
  | O => true
  | S fuel' => p lo && forallb_from fuel' (lo + 1) p
  end.

Section Reach.
Context `{Url.Ipaddress} `{Bs4} {World : Type} `{Requests World}
  {unicodedata : Url.Unicodedata}.

(** [at_loop_head base_url n0 num_pages page all_links n]: the call
    [scrape_seller_listings base_url] started in [n0] arrives at the top
    of its [while] loop with these values of the variables. *)
Inductive at_loop_head (base_url : string) (n0 : Net World)
  : option Z -> Z -> list string -> Net World -> Prop :=
| head_first resp n1 all_links :
    get (strip_query base_url) n0 = (Ok resp, n1) ->
    raise_for_status resp = Ok tt ->
    parse_listing_links (text resp) = Ok all_links ->
    at_loop_head base_url n0
      (num_pages_of (extract_total_count (text resp))) 2 all_links n1
| head_next num_pages page all_links n all_links' n' :
    at_loop_head base_url n0 num_pages page all_links n ->
    loop_body (strip_query base_url) num_pages page all_links n = Next all_links' n' ->
    at_loop_head base_url n0 num_pages (page + 1) all_links' n'.

End Reach.

(** ** Stand-ins for the libraries, for closed examples *)

Module Mock.

(** Every [<a href='...'>] of the text, in order: what [bs4] yields on
    documents whose only tags are such anchors. *)
Fixpoint scan_anchors (html : string) : list string :=
  match html with
  | EmptyString => []
  | String _ html' =>
      if String.prefix "<a href='" html
      then let v := Str.drop 9 html in
           Str.take (Str.find_if (Ascii.eqb "'"%char) v) v :: scan_anchors html'
      else scan_anchors html'
  end.

#[export] Instance bs4 : Bs4 := {| find_all_a_href := scan_anchors |}.

(** no bracketed host is accepted *)
#[export] Instance ipaddress : Url.Ipaddress :=
  {| Url.check_bracketed_netloc := fun _ => Some "Invalid IPv6 URL" |}.

(** NFKC on code points below 256: fourteen of them change, each on its
    own *)
Definition nfkc_char (c : N) : list N :=
  match c with
  | 160 => [32] | 168 => [32; 776] | 170 => [97] | 175 => [32; 772]
  | 178 => [50] | 179 => [51] | 180 => [32; 769] | 181 => [956]
  | 184 => [32; 807] | 185 => [49] | 186 => [111]
  | 188 => [49; 8260; 52] | 189 => [49; 8260; 50] | 190 => [51; 8260; 52]
  | _ => [c]
  end%N.

#[export] Instance unicodedata : Url.Unicodedata :=
  {| Url.normalize_nfkc := fun s => Url.code_points s ≫= nfkc_char |}.




(** A server that answers by URL alone, from a table; any other URL is
    a 404 with an empty body. *)
Definition site := list (string * result Response).

Fixpoint serve (table : site) (url : string) : result Response :=
  match table with
  | [] => Ok {| status_code := 404; text := "" |}
  | (u, r) :: table' => if String.eqb u url then r else serve table' url
  end.

#[export] Instance requests : Requests site :=
  {| session_get := fun url table => (serve table url, table) |}.

Definition start (table : site) : Net site := {| world := table; requested := [] |}.

Definition after (table : site) (urls : list string) : Net site :=
  {| world := table; requested := urls |}.

(** the answer to a URL, when there is one *)
Definition answer (table : site) (url : string) : Response :=
  match serve table url with
  | Ok r => r
  | Raise _ => {| status_code := 0; text := "" |}
  end.

Definition ok (body : string) : result Response :=
  Ok {| status_code := 200; text := body |}.

Definition seller : string := "https://www.kleinanzeigen.de/pro/haendler".

Definition ad_a : string := "https://www.kleinanzeigen.de/s-anzeige/a/1".
Definition ad_b : string := "https://www.kleinanzeigen.de/s-anzeige/b/2".
Definition ad_c : string := "https://www.kleinanzeigen.de/s-anzeige/c/3".

(** three pages of which the third has nothing new, and a fourth *)
Definition site_three_pages : site :=
  [ (seller,
     ok "<a href='/s-anzeige/a/1'>A</a> <a href='/s-anzeige/b/2'>B</a>");
    (seller +:+ "?seite=2",
     ok "<a href='/s-anzeige/b/2'>B</a> <a href='/s-anzeige/c/3'>C</a>");
    (seller +:+ "?seite=3",
     ok "<a href='/s-anzeige/a/1'>A</a> <a href='/s-anzeige/c/3'>C</a>");
    (seller +:+ "?seite=4",
     ok "<a href='/s-anzeige/d/4'>D</a>") ].

(** thirty ads announced, and a third page all the same *)
Definition site_count_30 : site :=
  [ (seller, ok "<p>30 Anzeigen online</p> <a href='/s-anzeige/a/1'>A</a>");
    (seller +:+ "?seite=2", ok "<a href='/s-anzeige/b/2'>B</a>");
    (seller +:+ "?seite=3", ok "<a href='/s-anzeige/c/3'>C</a>") ].

(** no ad announced, and a second page all the same *)
Definition site_count_0 : site :=
  [ (seller, ok "<p>0 Anzeigen online</p> <a href='/s-anzeige/a/1'>A</a>");
    (seller +:+ "?seite=2", ok "<a href='/s-anzeige/b/2'>B</a>") ].


(** the first page is out of service *)
Definition site_page_1_down : site :=
  [ (seller, Ok {| status_code := 503; text := "<a href='/s-anzeige/a/1'>A</a>" |}) ].

(** the first page answers 304 *)
Definition site_page_1_not_modified : site :=
  [ (seller, Ok {| status_code := 304; text := "<a href='/s-anzeige/a/1'>A</a>" |}) ].

End Mock.

(** ** [app.py]

    Streamlit is the outside of [main]: the widgets give it their values
    and it answers with calls.  The texts it shows have characters
    beyond 255; a message is kept as its template and the values that
    fill it. *)

Module App.

(** what the widgets return: [st.text_input], [st.selectbox] over
    [["txt", "csv", "xlsx", "docx"]], [st.button] *)
Record widgets := {
  url : string;
  file_type : string;
  button : bool
}.

Inductive message : Type :=
| Missing_url                (** [Bitte geben Sie eine Haendler-URL ein.] *)
| Fetch_failed (e : exn)     (** [f"Fehler beim Abrufen der Daten: {e}"] *)
| No_listings                (** [Keine Inserate gefunden.] *)
| Links_found (count : nat)  (** [f"Es wurden {len(links)} Inserat-Links gefunden."] *).

(** the calls [main] makes that show something *)
Inductive call : Type :=
| Set_page_config
| Title
| Write
| Spinner
| Error (m : message)
| Warning (m : message)
| Success (m : message)
| Download_button (label : string) (data : list Byte.byte)
    (file_name : string) (mime : string).

(** how [main] ends: it returns, an exception leaves it, or the loop of
    the scrape has not ended on the fuel given *)
Inductive ending : Type :=
| Returns
| Escapes (e : exn)
| Unfinished.

(** [s.upper()] on ASCII letters, which is all a format selector has *)
Definition upper_char (c : ascii) : ascii :=
  if Str.is_lower c then ascii_of_nat (Str.code c - 32) else c.

Fixpoint upper (s : string) : string :=
  match s with
  | EmptyString => EmptyString
  | String c s' => String (upper_char c) (upper s')
  end.

Section Main.
Context `{Url.Ipaddress} `{Bs4} `{Export} {World : Type} `{Requests World}
  {unicodedata : Url.Unicodedata}.

(** the calls before the button is looked at *)
Definition header : list call := [Set_page_config; Title; Write].

Definition main (fuel : nat) (w : widgets) (n : Net World)
  : list call * ending * Net World :=
  if button w then
    if negb (Url.nonempty (url w)) then (header ++ [Error Missing_url], Returns, n)
    else
      match scrape_seller_listings fuel (url w) n with
      | (OutOfFuel, n') => (header ++ [Spinner], Unfinished, n')
      | (Raised e, n') => (header ++ [Spinner; Error (Fetch_failed e)], Returns, n')
      | (Returned links, n') =>
          match links with
          | [] => (header ++ [Spinner; Warning No_listings], Returns, n')
          | _ =>
              let shown := header ++ [Spinner; Success (Links_found (length links))] in
              match create_download_file links (file_type w) with
              | Raise e => (shown, Escapes e, n')
              | Ok (mime_type, data) =>
                  (shown ++ [Download_button
                               (upper (file_type w) +:+ " herunterladen")
                               data
                               ("kleinanzeigen_links." +:+ file_type w)
                               mime_type],
                   Returns, n')
              end
          end
      end
  else (header, Returns, n).

End Main.

End App.

(** ** More notions the statements use *)

(** A path that [urljoin] leaves as it is: it starts with one [/], has
    none of the characters that [urlsplit] removes or splits at, and no
    segment [.] or [..]. *)
Definition plain_path (href : string) : bool :=
  String.prefix "/" href
  && negb (String.prefix "//" href)
  && negb (Str.mem "009"%char href) && negb (Str.mem "010"%char href)
  && negb (Str.mem "013"%char href)
  && negb (Str.mem ";"%char href) && negb (Str.mem "?"%char href)
  && negb (Str.mem "#"%char href)
  && List.forallb (fun seg => negb (String.eqb seg ".") && negb (String.eqb seg ".."))
       (Str.split "/"%char href).




(** ** More stand-ins *)

Module MoreMock.
Import Mock.

(** export libraries that write nothing and raise nothing, and
    [python-docx] is missing *)
#[export] Instance export : Export :=
  {| to_csv := fun _ => Ok ""; to_excel := fun _ => Ok [];
     docx_installed := false; docx_save := fun _ => Ok [] |}.

(** the second page cannot be reached *)
Definition site_page_2_unreachable : site :=
  [ (seller,
     ok "<a href='/s-anzeige/a/1'>A</a> <a href='/s-anzeige/b/2'>B</a>");
    (seller +:+ "?seite=2", Raise RequestException) ].

(** twelve ads announced, and a second page all the same *)
Definition site_count_12 : site :=
  [ (seller, ok "<p>12 Anzeigen online</p> <a href='/s-anzeige/a/1'>A</a>");
    (seller +:+ "?seite=2", ok "<a href='/s-anzeige/b/2'>B</a>") ].

Definition pressed (url file_type : string) : App.widgets :=
  {| App.url := url; App.file_type := file_type; App.button := true |}.

End MoreMock.

(** * Part II: properties *)

#[local] Arguments String.append !s1 s2 : simpl nomatch.
#[local] Arguments Str.drop !n !s : simpl nomatch.
#[local] Arguments Str.take !n !s : simpl nomatch.

(** * Facts about strings *)

Module StrFacts.

Lemma append_assoc (a b c : string) : (a +:+ b) +:+ c = a +:+ (b +:+ c).
Proof. induction a as [|x a IH]; simpl; [done | by rewrite IH]. Qed.

Lemma append_nil_r (a : string) : a +:+ "" = a.
Proof. induction a as [|x a IH]; simpl; [done | by rewrite IH]. Qed.

Lemma length_append (a b : string) :
  String.length (a +:+ b) = (String.length a + String.length b)%nat.
Proof. induction a as [|x a IH]; simpl; [done | by rewrite IH]. Qed.

Lemma take_drop_append (k : nat) (s : string) : Str.take k s +:+ Str.drop k s = s.
Proof.
  revert s; induction k as [|k IH]; intros [|c s]; simpl; try done.
  by rewrite IH.
Qed.

Lemma length_take (k : nat) (s : string) :
  (k ≤ String.length s)%nat → String.length (Str.take k s) = k.
Proof.
  revert s; induction k as [|k IH]; intros [|c s]; simpl; try done; try lia.
  intros Hk. rewrite IH; [done | lia].
Qed.

Lemma take_append (a b : string) : Str.take (String.length a) (a +:+ b) = a.
Proof. induction a as [|x a IH]; simpl; [by destruct b | by rewrite IH]. Qed.

Lemma drop_append (a b : string) : Str.drop (String.length a) (a +:+ b) = b.
Proof. induction a as [|x a IH]; simpl; done. Qed.

Lemma prefix_append (a b : string) : String.prefix a (a +:+ b) = true.
Proof.
  induction a as [|x a IH]; simpl; [by destruct b |].
  destruct (ascii_dec x x); [done | congruence].
Qed.

Lemma prefix_drop (a s : string) :
  String.prefix a s = true → s = a +:+ Str.drop (String.length a) s.
Proof.
  revert s; induction a as [|x a IH]; intros s; [done |].
  destruct s as [|c s]; simpl; [done |].
  destruct (ascii_dec x c) as [->|]; [|done].
  intros Hp. by rewrite <- (IH s Hp).
Qed.

Lemma forallb_append (p : ascii → bool) (a b : string) :
  Str.forallb p (a +:+ b) = Str.forallb p a && Str.forallb p b.
Proof. induction a as [|x a IH]; simpl; [done | by rewrite IH, andb_assoc]. Qed.

End StrFacts.

(** * The matcher against what a pattern means *)

Module ReFacts.
Import Re StrFacts.

Lemma greedy_le_length cls hi s : (greedy cls hi s ≤ String.length s)%nat.
Proof.
  revert hi; induction s as [|c s IH]; intros hi; simpl; [lia |].
  destruct hi as [[|h]|]; try lia; destruct (cls c); try lia.
  - specialize (IH (Some h)); lia.
  - specialize (IH None); lia.
Qed.

Lemma greedy_le_hi cls h s : (greedy cls (Some h) s ≤ h)%nat.
Proof.
  revert h; induction s as [|c s IH]; intros h; simpl; [lia |].
  destruct h as [|h]; [lia |]. destruct (cls c); [|lia].
  specialize (IH h); lia.
Qed.

Lemma greedy_take cls hi s k :
  (k ≤ greedy cls hi s)%nat → Str.forallb cls (Str.take k s) = true.
Proof.
  revert hi k; induction s as [|c s IH]; intros hi k; simpl.
  - intros Hk. by replace k with O by lia.
  - destruct k as [|k]; [done |]. simpl.
    destruct hi as [[|h]|]; try lia; destruct (cls c) eqn:Hc; try lia; intros Hk; simpl.
    + apply (IH (Some h)); lia.
    + apply (IH None); lia.
Qed.

(** a greedy repetition takes at least every admissible run *)
Lemma greedy_ge cls hi w s :
  Str.forallb cls w = true →
  (∀ h, hi = Some h → (String.length w ≤ h)%nat) →
  (String.length w ≤ greedy cls hi (w +:+ s))%nat.
Proof.
  revert hi; induction w as [|c w IH]; intros hi Hw Hhi; simpl; [lia |].
  simpl in Hw. apply andb_prop in Hw as [Hc Hw]. rewrite Hc.
  destruct hi as [[|h]|].
  - specialize (Hhi _ eq_refl); simpl in Hhi; lia.
  - apply le_n_S, IH; [done |]. intros h' [= <-].
    specialize (Hhi _ eq_refl); simpl in Hhi; lia.
  - apply le_n_S, IH; [done | by intros ? [=]].
Qed.

Lemma backtrack_sound rest lo s k gs :
  backtrack rest lo s k = Some gs →
  ∃ j groups, (lo ≤ j ≤ k)%nat ∧ rest (Str.drop j s) = Some groups
              ∧ gs = Str.take j s :: groups.
Proof.
  induction k as [|k IH]; simpl.
  - destruct (0 <? lo)%nat eqn:Hlo; [done |]. apply Nat.ltb_ge in Hlo.
    destruct (rest _) as [groups|] eqn:Hr; [|done].
    intros [= <-]. exists O, groups. split_and!; [lia..|done|done].
  - destruct (S k <? lo)%nat eqn:Hlo; [done |]. apply Nat.ltb_ge in Hlo.
    destruct (rest (Str.drop (S k) s)) as [groups|] eqn:Hr.
    + intros Heq. injection Heq as Hgs. subst gs.
      exists (S k), groups. split_and!; [lia..|done|done].
    + intros Hb. destruct (IH Hb) as (j & groups & Hj & Hrest & ->).
      exists j, groups. split_and!; [lia..|done|done].
Qed.

Lemma backtrack_complete rest lo s k j :
  (lo ≤ j ≤ k)%nat → is_Some (rest (Str.drop j s)) →
  is_Some (backtrack rest lo s k).
Proof.
  intros Hj Hrest. induction k as [|k IH].
  - replace j with O in * by lia. simpl.
    destruct (0 <? lo)%nat eqn:Hlo; [apply Nat.ltb_lt in Hlo; lia |].
    simpl in Hrest. destruct Hrest as [g ->]. by eexists.
  - simpl. destruct (S k <? lo)%nat eqn:Hlo; [apply Nat.ltb_lt in Hlo; lia |].
    destruct (rest (Str.drop (S k) s)) as [g|] eqn:Hr; [by eexists |].
    destruct (decide (j = S k)) as [->|Hne].
    + rewrite Hr in Hrest. by destruct Hrest.
    + apply IH. lia.
Qed.

Lemma match_here_sound r s groups :
  match_here r s = Some groups → matches r s groups.
Proof.
  revert s groups; induction r as [|[cls lo hi|l] r IH]; intros s groups; simpl.
  - intros [= <-]. constructor.
  - intros Hb. apply backtrack_sound in Hb as (j & gs & Hj & Hrest & ->).
    rewrite <- (take_drop_append j s) at 1.
    assert (Hlen : (j ≤ String.length s)%nat)
      by (pose proof (greedy_le_length cls hi s); lia).
    constructor; [| | |by apply IH].
    + apply (greedy_take cls hi); lia.
    + rewrite length_take; lia.
    + intros h ->. rewrite length_take by done.
      pose proof (greedy_le_hi cls h s); lia.
  - destruct (String.prefix l s) eqn:Hp; [|done].
    destruct (match_here r (Str.drop (String.length l) s)) as [gs|] eqn:Hm; [|done].
    intros [= <-]. rewrite (prefix_drop _ _ Hp) at 1. constructor. by apply IH.
Qed.

Lemma match_here_complete r s groups :
  matches r s groups → is_Some (match_here r s).
Proof.
  induction 1 as [s|l r s groups Hm IH|cls lo hi r w s groups Hw Hlo Hhi Hm IH]; simpl.
  - by eexists.
  - rewrite prefix_append, drop_append. destruct IH as [g ->]. by eexists.
  - apply (backtrack_complete _ _ _ _ (String.length w)).
    + split; [done |]. by apply greedy_ge.
    + by rewrite drop_append.
Qed.

(** [search] finds the leftmost match *)
Lemma search_Some r s groups :
  search r s = Some groups →
  ∃ pre suffix, s = pre +:+ suffix ∧ match_here r suffix = Some groups
    ∧ ∀ a b, pre = a +:+ b → b ≠ "" → match_here r (b +:+ suffix) = None.
Proof.
  induction s as [|c s IH]; simpl.
  - destruct (match_here r "") as [g|] eqn:Hm; [|done].
    intros [= <-]. exists "", "". split_and!; [done..|].
    intros a b Hab. destruct a, b; done.
  - destruct (match_here r (String c s)) as [g|] eqn:Hm.
    + intros [= <-]. exists "", (String c s). split_and!; [done..|].
      intros a b Hab. destruct a, b; done.
    + intros Hs. destruct (IH Hs) as (pre & suffix & -> & Hsuf & Hleft).
      exists (String c pre), suffix. split_and!; [done..|].
      intros a b Hab Hb. destruct a as [|x a]; simpl in Hab.
      * by subst b.
      * injection Hab as -> ->. by apply (Hleft a b).
Qed.

Lemma search_None r s :
  search r s = None ↔ ∀ pre suffix, s = pre +:+ suffix → match_here r suffix = None.
Proof.
  induction s as [|c s IH]; simpl.
  - destruct (match_here r "") eqn:Hm; split; try done.
    + intros Hall. rewrite <- (Hall "" "" eq_refl). done.
    + intros _ pre suffix Hs. destruct pre, suffix; done.
  - destruct (match_here r (String c s)) eqn:Hm; split; try done.
    + intros Hall. rewrite <- (Hall "" (String c s) eq_refl). done.
    + intros Hs pre suffix Hp. destruct pre as [|x pre]; simpl in Hp.
      * by subst suffix.
      * injection Hp as -> ->. by apply (proj1 IH Hs pre).
    + intros Hall. apply IH. intros pre suffix ->.
      by apply (Hall (String c pre)).
Qed.

Lemma search_skip r pre suffix :
  (∀ a b, pre = a +:+ b → b ≠ "" → match_here r (b +:+ suffix) = None) →
  search r (pre +:+ suffix) = search r suffix.
Proof.
  induction pre as [|c pre IH]; intros Hleft; simpl; [done |].
  assert (H0 : match_here r (String c pre +:+ suffix) = None)
    by (by apply (Hleft "" (String c pre))).
  simpl in H0; rewrite H0.
  apply IH. intros a b -> Hb. by apply (Hleft (String c a)).
Qed.

End ReFacts.

(** * [extract_total_count] *)

Section ExtractTotalCount.
Import Re StrFacts ReFacts.

Lemma forallb_length_nonempty (w : string) : (1 ≤ String.length w)%nat ↔ w ≠ "".
Proof. destruct w; simpl; split; (done || lia). Qed.

Lemma count_pattern_matches_inv s groups :
  matches count_pattern s groups →
  ∃ digits ws1 ws2 post,
    groups = [digits; ws1; "Anzeigen"; ws2; "online"]
    ∧ s = digits +:+ ws1 +:+ "Anzeigen" +:+ ws2 +:+ "online" +:+ post
    ∧ Str.forallb Str.is_digit digits = true
    ∧ (1 ≤ String.length digits ≤ 5)%nat
    ∧ Str.forallb Str.is_space ws1 = true ∧ ws1 ≠ ""
    ∧ Str.forallb Str.is_space ws2 = true ∧ ws2 ≠ "".
Proof.
  unfold count_pattern. intros Hm.
  inversion Hm as [| |? ? ? ? digits s1 g1 Hd Hd1 Hd5 Hm1]; subst; clear Hm.
  inversion Hm1 as [| |? ? ? ? ws1 s2 g2 Hw1 Hw1n _ Hm2]; subst; clear Hm1.
  inversion Hm2 as [|? ? s3 g3 Hm3|]; subst; clear Hm2.
  inversion Hm3 as [| |? ? ? ? ws2 s4 g4 Hw2 Hw2n _ Hm4]; subst; clear Hm3.
  inversion Hm4 as [|? ? post g5 Hm5|]; subst; clear Hm4.
  inversion Hm5; subst; clear Hm5.
  exists digits, ws1, ws2, post. split_and!; try done.
  - by apply Hd5.
  - by apply forallb_length_nonempty.
  - by apply forallb_length_nonempty.
Qed.

Lemma count_phrase_matches s :
  count_phrase_at_start s → ∃ groups, matches count_pattern s groups.
Proof.
  intros (digits & ws1 & ws2 & post & -> & Hd & [Hd1 Hd5] & Hw1 & Hw1n & Hw2 & Hw2n).
  eexists. unfold count_pattern.
  apply matches_rep; [done | done | by intros ? [= <-] |].
  apply matches_rep; [done | by apply forallb_length_nonempty | done |].
  apply matches_lit.
  apply matches_rep; [done | by apply forallb_length_nonempty | done |].
  apply matches_lit. apply matches_nil.
Qed.

Lemma match_here_count_phrase s :
  match_here count_pattern s = None ↔ ¬ count_phrase_at_start s.
Proof.
  split.
  - intros Hnone Hp. apply count_phrase_matches in Hp as [groups Hm].
    apply match_here_complete in Hm as [g Hg]. congruence.
  - intros Hnot. destruct (match_here count_pattern s) as [g|] eqn:Hm; [|done].
    exfalso. apply Hnot. apply match_here_sound in Hm.
    apply count_pattern_matches_inv in Hm
      as (digits & ws1 & ws2 & post & _ & Hs & Hrest).
    by exists digits, ws1, ws2, post.
Qed.

(** [int] of one to five digits *)
Lemma int_digits_range w acc :
  Str.forallb Str.is_digit w = true →
  ∃ v, int_digits acc w = Some (acc * 10 ^ Z.of_nat (String.length w) + v)
       ∧ 0 ≤ v < 10 ^ Z.of_nat (String.length w).
Proof.
  revert acc; induction w as [|c w IH]; intros acc Hw; simpl.
  - exists 0. split; [f_equal; lia | lia].
  - simpl in Hw. apply andb_prop in Hw as [Hc Hw]. rewrite Hc.
    destruct (IH (10 * acc + Str.digit_value c) Hw) as (v & -> & Hv).
    assert (Hdv : 0 ≤ Str.digit_value c ≤ 9).
    { unfold Str.is_digit, Str.between in Hc. unfold Str.digit_value.
      apply andb_prop in Hc as [H1 H2].
      apply Nat.leb_le in H1, H2. lia. }
    rewrite Nat2Z.inj_succ, Z.pow_succ_r by lia.
    set (p := 10 ^ Z.of_nat (String.length w)) in *.
    exists (Str.digit_value c * p + v). split; [f_equal; lia | nia].
Qed.

Lemma int_of_str_range w :
  Str.forallb Str.is_digit w = true → (1 ≤ String.length w ≤ 5)%nat →
  ∃ v, int_of_str w = Some v ∧ 0 ≤ v ≤ 99999.
Proof.
  intros Hw Hlen. destruct (int_digits_range w 0 Hw) as (v & Hv & Hr).
  exists v. split.
  - destruct w; simpl in *; [lia | done].
  - assert (10 ^ Z.of_nat (String.length w) ≤ 10 ^ 5)
      by (apply Z.pow_le_mono_r; lia).
    lia.
Qed.

Lemma extract_total_count_search s :
  extract_total_count s = None ↔ search count_pattern s = None.
Proof.
  unfold extract_total_count. split.
  - destruct (search count_pattern s) as [groups|] eqn:Hs; [|done].
    apply search_Some in Hs as (pre & suffix & _ & Hm & _).
    apply match_here_sound, count_pattern_matches_inv in Hm
      as (digits & ws1 & ws2 & post & -> & _ & Hd & Hlen & _).
    destruct (int_of_str_range digits Hd Hlen) as (v & -> & _). done.
  - by intros ->.
Qed.

Lemma extract_total_count_None s :
  extract_total_count s = None ↔ ¬ count_phrase_occurs s.
Proof.
  rewrite extract_total_count_search, search_None. split.
  - intros Hall (pre & suffix & -> & Hp).
    by apply (match_here_count_phrase suffix) in Hp; [|apply (Hall pre)].
  - intros Hnot pre suffix ->. apply match_here_count_phrase.
    intros Hp. apply Hnot. by exists pre, suffix.
Qed.

Lemma extract_total_count_range s v :
  extract_total_count s = Some v → 0 ≤ v ≤ 99999.
Proof.
  unfold extract_total_count.
  destruct (search count_pattern s) as [groups|] eqn:Hs; [|done].
  apply search_Some in Hs as (pre & suffix & _ & Hm & _).
  apply match_here_sound, count_pattern_matches_inv in Hm
    as (digits & ws1 & ws2 & post & -> & _ & Hd & Hlen & _).
  destruct (int_of_str_range digits Hd Hlen) as (v' & -> & Hv). by intros [= <-].
Qed.

Lemma extract_total_count_skip pre suffix :
  (∀ a b, pre = a +:+ b → b ≠ "" → ¬ count_phrase_at_start (b +:+ suffix)) →
  extract_total_count (pre +:+ suffix) = extract_total_count suffix.
Proof.
  intros Hleft. unfold extract_total_count. rewrite search_skip; [done |].
  intros a b Hab Hb. apply match_here_count_phrase. by apply (Hleft a b).
Qed.

Lemma extract_total_count_1489 post :
  extract_total_count ("1489 Anzeigen online" +:+ post) = Some 1489.
Proof. destruct post; reflexivity. Qed.

End ExtractTotalCount.

(** * [parse_listing_links] *)

Section FirstOccurrences.

Lemma elem_of_first_occurrences (l : list string) (u : string) :
  u ∈ first_occurrences l ↔ u ∈ l.
Proof.
  induction l as [|x l IH]; simpl; [done |].
  rewrite !elem_of_cons, <- IH, !list_elem_of_In, List.filter_In.
  destruct (decide (u = x)) as [->|Hne]; [tauto |].
  apply String.eqb_neq in Hne. rewrite Hne. simpl. intuition congruence.
Qed.

Lemma NoDup_first_occurrences (l : list string) : NoDup (first_occurrences l).
Proof.
  induction l as [|x l IH]; simpl; constructor.
  - rewrite list_elem_of_In, List.filter_In, String.eqb_refl. simpl. intuition congruence.
  - apply NoDup_ListNoDup, List.NoDup_filter, NoDup_ListNoDup, IH.
Qed.

Lemma filter_not_in_nil (l : list string) :
  List.filter (λ u, bool_decide (u ∉ @nil string)) l = l.
Proof.
  induction l as [|x l IH]; cbn [List.filter]; [done |].
  rewrite bool_decide_true by apply not_elem_of_nil. by rewrite IH.
Qed.

Lemma filter_not_in_snoc (links l : list string) (x : string) :
  List.filter (λ u, bool_decide (u ∉ links ++ [x])) l
  = List.filter (λ u, bool_decide (u ∉ links))
      (List.filter (λ y, negb (String.eqb y x)) l).
Proof.
  induction l as [|y l IH]; cbn [List.filter]; [done |].
  destruct (String.eqb_spec y x) as [->|Hne]; cbn [negb List.filter].
  - rewrite bool_decide_false; [done |].
    rewrite not_elem_of_app, list_elem_of_singleton. tauto.
  - rewrite <- IH. destruct (decide (y ∈ links)) as [Hin|Hnin].
    + rewrite !bool_decide_false; [done | tauto |].
      rewrite not_elem_of_app. tauto.
    + rewrite !bool_decide_true; [done | done |].
      rewrite not_elem_of_app, list_elem_of_singleton. tauto.
Qed.

Lemma filter_not_in_absorb (links l : list string) (x : string) :
  x ∈ links →
  List.filter (λ u, bool_decide (u ∉ links))
    (List.filter (λ y, negb (String.eqb y x)) l)
  = List.filter (λ u, bool_decide (u ∉ links)) l.
Proof.
  intros Hx. induction l as [|y l IH]; cbn [List.filter]; [done |].
  destruct (String.eqb_spec y x) as [->|Hne]; cbn [negb List.filter].
  - rewrite bool_decide_false; [done | by intros Hn; apply Hn].
  - by rewrite IH.
Qed.

(** on distinct [A], [B], [C]: the order of the claim *)
Lemma first_occurrences_ABAC (A B C : string) :
  A ≠ B → A ≠ C → B ≠ C → first_occurrences [A; B; A; C] = [A; B; C].
Proof.
  intros HAB HAC HBC. simpl.
  repeat first
    [ rewrite String.eqb_refl
    | rewrite (proj2 (String.eqb_neq _ _)) by congruence
    | progress simpl ].
  done.
Qed.

End FirstOccurrences.

Section ParseFacts.
Context `{Url.Ipaddress} `{Bs4} {unicodedata : Url.Unicodedata}.

Lemma result_bind_Ok {A B} (r : result A) (k : A → result B) (b : B) :
  r ≫= k = Ok b → ∃ a, r = Ok a ∧ k a = Ok b.
Proof. destruct r as [a|e]; [by exists a | done]. Qed.

Lemma mapM_Ok_elem {A B} (f : A → result B) (l : list A) (k : list B) (y : B) :
  mapM f l = Ok k → y ∈ k → ∃ x, x ∈ l ∧ f x = Ok y.
Proof.
  revert k; induction l as [|x l IH]; intros k; simpl.
  - intros [= <-] Hy. by apply elem_of_nil in Hy.
  - intros Hb. apply result_bind_Ok in Hb as (y0 & Hfx & Hb).
    apply result_bind_Ok in Hb as (k0 & Hk0 & [= <-]).
    intros [->|Hy]%elem_of_cons.
    + exists x. split; [left | done].
    + destruct (IH k0 Hk0 Hy) as (x' & Hx' & Hfx'). exists x'. split; [by right | done].
Qed.

Lemma mapM_Ok_elem_2 {A B} (f : A → result B) (l : list A) (k : list B) (x : A) (y : B) :
  mapM f l = Ok k → x ∈ l → f x = Ok y → y ∈ k.
Proof.
  revert k; induction l as [|x0 l IH]; intros k; simpl.
  - intros _ Hx. by apply elem_of_nil in Hx.
  - intros Hb. apply result_bind_Ok in Hb as (y0 & Hfx & Hb).
    apply result_bind_Ok in Hb as (k0 & Hk0 & [= <-]).
    intros [->|Hx]%elem_of_cons Hy.
    + rewrite Hfx in Hy. injection Hy as ->. left.
    + right. by apply (IH k0).
Qed.

(** the loop keeps [seen] equal to the set of [links] and appends the
    first occurrences of what it has not seen *)
Lemma parse_listing_links_loop_spec anchors links (seen : gset string) :
  (∀ u, u ∈ seen ↔ u ∈ links) →
  parse_listing_links_loop anchors links seen
  = us ← mapM full_url_of (List.filter accepted anchors);
    Ok (links ++ List.filter (λ u, bool_decide (u ∉ links)) (first_occurrences us)).
Proof.
  revert links seen; induction anchors as [|href anchors IH]; intros links seen Hseen.
  - simpl. by rewrite app_nil_r.
  - cbn [parse_listing_links_loop List.filter]. unfold accepted at 1.
    destruct (Url.nonempty href); simpl; [|by apply IH].
    destruct (Str.contains listing_marker href); simpl; [|by apply IH].
    destruct (full_url_of href) as [u|e]; simpl; [|done].
    destruct (decide (u ∉ seen)) as [Hnew|Hold].
    + rewrite (IH (links ++ [u]) ({[u]} ∪ seen)).
      2:{ intros v. rewrite elem_of_union, elem_of_singleton, elem_of_app,
            list_elem_of_singleton, Hseen. tauto. }
      destruct (mapM full_url_of (List.filter accepted anchors)) as [us|e]; simpl; [|done].
      rewrite bool_decide_true by (by rewrite <- Hseen).
      by rewrite <- app_assoc, filter_not_in_snoc.
    + assert (Hin : u ∈ links) by (apply Hseen; by apply dec_stable).
      rewrite (IH links seen Hseen).
      destruct (mapM full_url_of (List.filter accepted anchors)) as [us|e]; simpl; [|done].
      rewrite bool_decide_false by (by intros Hn).
      by rewrite filter_not_in_absorb.
Qed.

Lemma parse_listing_links_spec html :
  parse_listing_links html
  = us ← mapM full_url_of (List.filter accepted (find_all_a_href html));
    Ok (first_occurrences us).
Proof.
  unfold parse_listing_links.
  rewrite parse_listing_links_loop_spec
    by (intros u; rewrite elem_of_empty, elem_of_nil; tauto).
  destruct (mapM _ _) as [us|e]; simpl; [|done].
  by rewrite filter_not_in_nil.
Qed.

Lemma parse_listing_links_Ok html links :
  parse_listing_links html = Ok links →
  ∃ us, mapM full_url_of (List.filter accepted (find_all_a_href html)) = Ok us
        ∧ links = first_occurrences us.
Proof.
  rewrite parse_listing_links_spec. intros Hb.
  apply result_bind_Ok in Hb as (us & Hus & [= <-]). by exists us.
Qed.


End ParseFacts.

(** * [math.ceil(total_ads / 25)] *)

Section Ceil.

Lemma forallb_from_spec fuel lo p :
  forallb_from fuel lo p = true →
  ∀ t, lo ≤ t < lo + Z.of_nat fuel → p t = true.
Proof.
  revert lo; induction fuel as [|fuel IH]; intros lo Hall t Ht; [lia |].
  simpl in Hall. apply andb_prop in Hall as [Hlo Hall].
  destruct (decide (t = lo)) as [->|Hne]; [done |].
  apply (IH (lo + 1)); [done | lia].
Qed.

(** every count that [extract_total_count] can give, checked one by one *)
Lemma math_ceil_table :
  forallb_from (Z.to_nat 99999) 1
    (λ t, math_ceil (true_div t 25) =? (t + 24) / 25) = true.
Proof. vm_compute. reflexivity. Qed.

Lemma math_ceil_div_25 t :
  1 ≤ t ≤ 99999 → math_ceil (true_div t 25) = (t + 24) / 25.
Proof.
  intros Ht. apply Z.eqb_eq.
  apply (forallb_from_spec _ _ _ math_ceil_table t). lia.
Qed.

Lemma num_pages_of_positive t :
  1 ≤ t ≤ 99999 → num_pages_of (Some t) = Some ((t + 24) / 25).
Proof.
  intros Ht. unfold num_pages_of.
  destruct (Z.eqb_spec t 0); [lia |]. by rewrite math_ceil_div_25.
Qed.

End Ceil.

(** * [scrape_seller_listings] *)

Section ScrapeFacts.
Context `{Url.Ipaddress} `{Bs4} {World : Type} `{Requests World}
  {unicodedata : Url.Unicodedata}.

Lemma get_requested url (n n' : Net World) r :
  get url n = (r, n') → requested n' = requested n ++ [url].
Proof.
  unfold get. destruct (session_get url (world n)) as [r' w].
  by intros [= _ <-].
Qed.

Lemma get_session_get url (n : Net World) r w :
  session_get url (world n) = (r, w) →
  get url n = (r, {| world := w; requested := requested n ++ [url] |}).
Proof. unfold get. by intros ->. Qed.

Lemma loop_body_Next base np page acc n acc' n' :
  loop_body base np page acc n = Next acc' n' →
  past_last_page np page = false
  ∧ requested n' = requested n ++ [page_url base page]
  ∧ ∃ resp links,
      get (page_url base page) n = (Ok resp, n')
      ∧ status_code resp = 200
      ∧ parse_listing_links (text resp) = Ok links
      ∧ new_links_of acc links ≠ []
      ∧ acc' = acc ++ new_links_of acc links.
Proof.
  unfold loop_body.
  destruct (past_last_page np page); [done |].
  destruct (get (page_url base page) n) as [[resp|e] n1] eqn:Hget; [|done].
  destruct (Z.eqb_spec (status_code resp) 200) as [H200|]; [|done]. simpl.
  destruct (parse_listing_links (text resp)) as [links|e] eqn:Hparse; [|done].
  destruct (new_links_of acc links) as [|u new] eqn:Hnew; [done |].
  intros [= <- <-]. split_and!; [done | by apply (get_requested _ _ _ _ Hget) |].
  exists resp, links. rewrite Hnew. by split_and!.
Qed.

Lemma loop_body_Stop base np page acc n o n' :
  loop_body base np page acc n = Stop o n' →
  (past_last_page np page = true ∧ n' = n)
  ∨ (past_last_page np page = false
     ∧ requested n' = requested n ++ [page_url base page]).
Proof.
  unfold loop_body.
  destruct (past_last_page np page); [intros [= _ <-]; by left |].
  intros Hstop. right. split; [done |].
  destruct (get (page_url base page) n) as [[resp|e] n1] eqn:Hget.
  - apply get_requested in Hget.
    destruct (negb (status_code resp =? 200)); [by injection Hstop as _ <- |].
    destruct (parse_listing_links (text resp)) as [links|e];
      [|by injection Hstop as _ <-].
    destruct (new_links_of acc links); [by injection Hstop as _ <- | done].
  - apply get_requested in Hget. by injection Hstop as _ <-.
Qed.

(** the pages the loop asks for are consecutive, and none lies past
    the expected page count *)
Lemma pages_loop_requested fuel base np page acc n :
  ∃ len : nat,
    (len ≤ fuel)%nat
    ∧ requested (pages_loop fuel base np page acc n).2
      = requested n ++ (page_url base <$> seqZ page (Z.of_nat len))
    ∧ ∀ p, page ≤ p < page + Z.of_nat len → past_last_page np p = false.
Proof.
  revert page acc n; induction fuel as [|fuel IH]; intros page acc n; simpl.
  - exists O. split_and!; [done | by rewrite app_nil_r | lia].
  - destruct (loop_body base np page acc n) as [acc' n'|o n'] eqn:Hbody.
    + apply loop_body_Next in Hbody as (Hpast & Hreq & _).
      destruct (IH (page + 1) acc' n') as (len & Hlen & Htrace & Hall).
      exists (S len). split_and!; [lia | |].
      * rewrite Htrace, Hreq, <- app_assoc. f_equal.
        rewrite (seqZ_cons page) by lia. simpl. do 3 f_equal; lia.
      * intros p Hp. destruct (decide (p = page)) as [->|]; [done |].
        apply Hall. lia.
    + apply loop_body_Stop in Hbody as [[_ ->]|[Hpast Hreq]]; simpl.
      * exists O. split_and!; [lia | by rewrite app_nil_r | lia].
      * exists 1%nat. split_and!; [lia | by rewrite Hreq |].
        intros p Hp. by replace p with page by lia.
Qed.

Lemma past_last_page_Some K page :
  K ≠ 0 → past_last_page (Some K) page = false ↔ page ≤ K.
Proof.
  intros HK. unfold past_last_page.
  destruct (Z.eqb_spec K 0); [done |]. simpl.
  destruct (Z.ltb_spec K page); split; (done || lia).
Qed.

(** with an expected page count the loop ends *)
Lemma pages_loop_ends fuel base K page acc n :
  K ≠ 0 → (0 < fuel)%nat → K + 1 - page < Z.of_nat fuel →
  (pages_loop fuel base (Some K) page acc n).1 ≠ OutOfFuel.
Proof.
  intros HK. revert page acc n; induction fuel as [|fuel IH];
    intros page acc n Hpos Hfuel; [lia |]. simpl.
  destruct (loop_body base (Some K) page acc n) as [acc' n'|o n'] eqn:Hbody.
  - apply loop_body_Next in Hbody as (Hpast & _).
    apply past_last_page_Some in Hpast; [|done].
    apply IH; lia.
  - simpl. unfold loop_body in Hbody.
    destruct (past_last_page (Some K) page); [by injection Hbody as <- _ |].
    destruct (get (page_url base page) n) as [[resp|e] n1];
      [|by injection Hbody as <- _].
    destruct (negb (status_code resp =? 200)); [by injection Hbody as <- _ |].
    destruct (parse_listing_links (text resp)) as [links|e];
      [|by injection Hbody as <- _].
    destruct (new_links_of acc links); [by injection Hbody as <- _ | done].
Qed.

End ScrapeFacts.

Section ReachFacts.
Context `{Url.Ipaddress} `{Bs4} {World : Type} `{Requests World}
  {unicodedata : Url.Unicodedata}.

Lemma seqZ_snoc (m len : Z) :
  0 ≤ len → seqZ m (len + 1) = seqZ m len ++ [m + len].
Proof.
  intros Hlen. rewrite seqZ_app by lia.
  f_equal; rewrite seqZ_cons by lia; by rewrite seqZ_nil by lia.
Qed.

(** a run that is at the top of the loop for [page] has asked for the
    pages up to [page - 1], and goes on as the loop does from there *)
Lemma at_loop_head_run base n0 np page acc n :
  at_loop_head base n0 np page acc n →
  2 ≤ page
  ∧ requested n
    = requested n0 ++ strip_query base
        :: (page_url (strip_query base) <$> seqZ 2 (page - 2))
  ∧ ∀ fuel, scrape_seller_listings (Z.to_nat (page - 2) + fuel) base n0
            = pages_loop fuel (strip_query base) np page acc n.
Proof.
  induction 1 as [resp n1 links Hget Hstatus Hparse
                 |np page acc n acc' n' Hhead (Hpage & Hreq & Hrun) Hbody].
  - split_and!; [lia | by rewrite (get_requested _ _ _ _ Hget) |].
    intros fuel. unfold scrape_seller_listings.
    by rewrite Hget, Hstatus, Hparse.
  - apply loop_body_Next in Hbody as Hnext. destruct Hnext as (_ & Hreq' & _).
    split_and!; [lia | |].
    + rewrite Hreq', Hreq. replace (page + 1 - 2) with (page - 2 + 1) by lia.
      rewrite seqZ_snoc by lia. rewrite fmap_app. simpl.
      rewrite <- app_assoc. simpl.
      by replace (2 + (page - 2)) with page by lia.
    + intros fuel.
      replace (Z.to_nat (page + 1 - 2) + fuel)%nat
        with (Z.to_nat (page - 2) + S fuel)%nat by lia.
      rewrite Hrun. simpl. by rewrite Hbody.
Qed.

(** when the body of the loop stops, the call ends with what it stops on *)
Lemma at_loop_head_stop base n0 np page acc n o n' fuel :
  at_loop_head base n0 np page acc n →
  loop_body (strip_query base) np page acc n = Stop o n' →
  (Z.to_nat (page - 1) ≤ fuel)%nat →
  scrape_seller_listings fuel base n0 = (o, n').
Proof.
  intros Hhead Hbody Hfuel.
  destruct (at_loop_head_run _ _ _ _ _ _ Hhead) as (Hpage & _ & Hrun).
  replace fuel with (Z.to_nat (page - 2) + S (fuel - Z.to_nat (page - 1)))%nat by lia.
  rewrite Hrun. simpl. by rewrite Hbody.
Qed.


Lemma elem_of_new_links_of acc links url :
  url ∈ new_links_of acc links ↔ url ∈ links ∧ url ∉ acc.
Proof.
  unfold new_links_of. rewrite list_elem_of_In, List.filter_In, <- list_elem_of_In.
  by rewrite bool_decide_eq_true.
Qed.


End ReachFacts.

(** * The claims about [extract_total_count] *)

Section CountClaims.
Import StrFacts.

(** no count phrase starts in a text that begins with a character that
    is not a digit *)
Lemma count_phrase_starts_with_digit c s :
  count_phrase_at_start (String c s) → Str.is_digit c = true.
Proof.
  intros (digits & ws1 & ws2 & post & Hs & Hd & [Hd1 _] & _).
  destruct digits as [|d digits]; simpl in *; [lia |].
  injection Hs as -> _. by apply andb_prop in Hd as [Hd _].
Qed.

Lemma no_digit_no_count_phrase pre suffix :
  Str.forallb (λ c, negb (Str.is_digit c)) pre = true →
  ∀ a b, pre = a +:+ b → b ≠ "" → ¬ count_phrase_at_start (b +:+ suffix).
Proof.
  intros Hpre a b -> Hb Hphrase.
  rewrite forallb_append in Hpre. apply andb_prop in Hpre as [_ Hpre].
  destruct b as [|c b]; [done |]. simpl in *.
  apply count_phrase_starts_with_digit in Hphrase.
  apply andb_prop in Hpre as [Hc _]. by rewrite Hphrase in Hc.
Qed.

(** C6, as the code has it: [extract_total_count] gives the number of
    the leftmost count phrase.  On a text that contains
    ["1489 Anzeigen online"] it gives 1489 when no count phrase starts
    before that one, which is so when no digit comes before it; and it
    gives [None] exactly on the texts in which no count phrase occurs. *)
Theorem extract_total_count_leftmost :
  (∀ pre post,
     (∀ a b, pre = a +:+ b → b ≠ "" →
             ¬ count_phrase_at_start (b +:+ "1489 Anzeigen online" +:+ post)) →
     extract_total_count (pre +:+ "1489 Anzeigen online" +:+ post) = Some 1489)
  ∧ (∀ pre post,
       Str.forallb (λ c, negb (Str.is_digit c)) pre = true →
       extract_total_count (pre +:+ "1489 Anzeigen online" +:+ post) = Some 1489)
  ∧ (∀ s, extract_total_count s = None ↔ ¬ count_phrase_occurs s).
Proof.
  assert (Hleft : ∀ pre post,
    (∀ a b, pre = a +:+ b → b ≠ "" →
            ¬ count_phrase_at_start (b +:+ "1489 Anzeigen online" +:+ post)) →
    extract_total_count (pre +:+ "1489 Anzeigen online" +:+ post) = Some 1489).
  { intros pre post Hpre. rewrite extract_total_count_skip by done.
    apply extract_total_count_1489. }
  split_and!; [done | |apply extract_total_count_None].
  intros pre post Hpre. apply Hleft. by apply no_digit_no_count_phrase.
Qed.

Lemma extract_total_count_leftmost_witness :
  extract_total_count ("Aktuell sind " +:+ "1489 Anzeigen online" +:+ ".") = Some 1489.
Proof.
  apply (proj1 (proj2 extract_total_count_leftmost) "Aktuell sind " ".").
  reflexivity.
Defined.

(** C6 as stated fails: a text can contain ["1489 Anzeigen online"] and
    give another number. *)
Lemma extract_total_count_longer_number :
  Str.contains "1489 Anzeigen online" "21489 Anzeigen online" = true
  ∧ extract_total_count "21489 Anzeigen online" = Some 21489.
Proof. split; reflexivity. Qed.

End CountClaims.

(** * The claims about [parse_listing_links] *)

Section ParseClaims.
Context `{Url.Ipaddress} `{Bs4} {unicodedata : Url.Unicodedata}.

(** C3: the list that [parse_listing_links] returns has no duplicates
    and keeps the accepted anchors in the order of their first
    occurrence; on anchors [A, B, A, C] it is [A, B, C]. *)
Theorem parse_listing_links_first_occurrences html links :
  parse_listing_links html = Ok links →
  NoDup links
  ∧ ∃ urls,
      mapM full_url_of (List.filter accepted (find_all_a_href html)) = Ok urls
      ∧ links = first_occurrences urls
      ∧ ∀ A B C, urls = [A; B; A; C] → A ≠ B → A ≠ C → B ≠ C →
                 links = [A; B; C].
Proof.
  intros (urls & Hurls & ->)%parse_listing_links_Ok.
  split; [apply NoDup_first_occurrences |].
  exists urls. split_and!; [done..|].
  intros A B C -> HAB HAC HBC. by apply first_occurrences_ABAC.
Qed.

(** C4, as the code has it: every URL returned comes from an anchor
    whose [href] contains the marker, as that [href] itself when it
    starts with [http] and as [urljoin(origin, href)] otherwise; in the
    first case the URL contains the marker. *)
Theorem parse_listing_links_from_marked_anchor html links url :
  parse_listing_links html = Ok links → url ∈ links →
  ∃ href,
    href ∈ find_all_a_href html
    ∧ Str.contains listing_marker href = true
    ∧ (if Str.startswith "http" href
       then url = href ∧ Str.contains listing_marker url = true
       else Url.urljoin origin href = Ok url).
Proof.
  intros (urls & Hurls & ->)%parse_listing_links_Ok Hin.
  apply (proj1 (elem_of_first_occurrences _ _)) in Hin.
  destruct (mapM_Ok_elem _ _ _ _ Hurls Hin) as (href & Hhref & Hfull).
  apply list_elem_of_In, List.filter_In in Hhref as [Hhref Hacc].
  apply andb_prop in Hacc as [_ Hmark].
  exists href. split_and!; [by apply list_elem_of_In | done |].
  unfold full_url_of in Hfull.
  destruct (Str.startswith "http" href); simpl in Hfull; [|done].
  injection Hfull as <-. done.
Qed.

(** C5: the anchor [/s-anzeige/foo-123] is joined to the origin, and
    the result is in the output. *)
Theorem parse_listing_links_resolves_relative html links :
  parse_listing_links html = Ok links →
  "/s-anzeige/foo-123" ∈ find_all_a_href html →
  Url.urljoin origin "/s-anzeige/foo-123"
    = Ok "https://www.kleinanzeigen.de/s-anzeige/foo-123"
  ∧ "https://www.kleinanzeigen.de/s-anzeige/foo-123" ∈ links.
Proof.
  intros (urls & Hurls & ->)%parse_listing_links_Ok Hin.
  split; [reflexivity |].
  apply (proj2 (elem_of_first_occurrences _ _)).
  apply (mapM_Ok_elem_2 _ _ _ "/s-anzeige/foo-123" _ Hurls); [|reflexivity].
  apply list_elem_of_In, List.filter_In. split; [by apply list_elem_of_In | reflexivity].
Qed.

End ParseClaims.

Section ParseExamples.
Import Mock.

Lemma parse_listing_links_first_occurrences_witness :
  parse_listing_links
    "<a href='/s-anzeige/a/1'>A</a><a href='/s-anzeige/b/2'>B</a><a href='https://www.kleinanzeigen.de/s-anzeige/a/1'>A</a><a href='/s-anzeige/c/3'>C</a>"
  = Ok [ad_a; ad_b; ad_c]
  ∧ NoDup [ad_a; ad_b; ad_c].
Proof.
  split; [vm_compute; reflexivity |].
  apply (parse_listing_links_first_occurrences
           "<a href='/s-anzeige/a/1'>A</a><a href='/s-anzeige/b/2'>B</a><a href='https://www.kleinanzeigen.de/s-anzeige/a/1'>A</a><a href='/s-anzeige/c/3'>C</a>").
  vm_compute. reflexivity.
Defined.

(** C4 as stated fails: joining to the origin resolves [..], and the
    marker goes with it. *)
Lemma parse_listing_links_drops_marker :
  parse_listing_links "<a href='/s-anzeige/../impressum'>x</a>"
    = Ok ["https://www.kleinanzeigen.de/impressum"]
  ∧ Str.contains listing_marker "https://www.kleinanzeigen.de/impressum" = false.
Proof. split; vm_compute; reflexivity. Qed.

Lemma parse_listing_links_from_marked_anchor_witness :
  ∃ href,
    href ∈ find_all_a_href "<a href='/s-anzeige/../impressum'>x</a>"
    ∧ Str.contains listing_marker href = true
    ∧ (if Str.startswith "http" href
       then "https://www.kleinanzeigen.de/impressum" = href
            ∧ Str.contains listing_marker "https://www.kleinanzeigen.de/impressum" = true
       else Url.urljoin origin href = Ok "https://www.kleinanzeigen.de/impressum").
Proof.
  apply (parse_listing_links_from_marked_anchor
           "<a href='/s-anzeige/../impressum'>x</a>"
           ["https://www.kleinanzeigen.de/impressum"]).
  - vm_compute. reflexivity.
  - left.
Defined.

Lemma parse_listing_links_resolves_relative_witness :
  Url.urljoin origin "/s-anzeige/foo-123"
    = Ok "https://www.kleinanzeigen.de/s-anzeige/foo-123"
  ∧ "https://www.kleinanzeigen.de/s-anzeige/foo-123"
    ∈ ["https://www.kleinanzeigen.de/s-anzeige/foo-123"].
Proof.
  apply (parse_listing_links_resolves_relative
           "<p><a href='/s-anzeige/foo-123'>Foo</a></p>").
  - vm_compute. reflexivity.
  - vm_compute. left.
Defined.

End ParseExamples.

(** * The claim about [create_download_file] *)

Section ExportClaims.
Context `{Export}.





End ExportClaims.

Section ExportExamples.
Import Mock.


End ExportExamples.

(** * The claims about [scrape_seller_listings] *)

Section ScrapeClaims.
Context `{Url.Ipaddress} `{Bs4} {World : Type} `{Requests World}
  {unicodedata : Url.Unicodedata}.

(** C1, as the code has it: when the first page gives a count that is
    not zero, the expected page count is its quotient by 25 rounded up,
    the pages asked for are the first and then 2, 3, ... up to at most
    that count, and the call ends; with a count of 30 the third page is
    not asked for. *)
Theorem scrape_within_expected_pages fuel base_url n resp w t :
  session_get (strip_query base_url) (world n) = (Ok resp, w) →
  extract_total_count (text resp) = Some t →
  t ≠ 0 →
  num_pages_of (Some t) = Some ((t + 24) / 25)
  ∧ (∃ len,
       0 ≤ len ∧ 1 + len ≤ (t + 24) / 25
       ∧ (t = 30 → len ≤ 1)
       ∧ requested (scrape_seller_listings fuel base_url n).2
         = requested n ++ strip_query base_url
             :: (page_url (strip_query base_url) <$> seqZ 2 len))
  ∧ ((Z.to_nat ((t + 24) / 25) ≤ fuel)%nat →
     (scrape_seller_listings fuel base_url n).1 ≠ OutOfFuel).
Proof.
  intros Hget Hcount Ht.
  pose proof (extract_total_count_range _ _ Hcount) as Hrange.
  assert (Hnp : num_pages_of (Some t) = Some ((t + 24) / 25))
    by (apply num_pages_of_positive; lia).
  assert (HK : 1 ≤ (t + 24) / 25) by (apply Z.div_le_lower_bound; lia).
  split; [done |].
  unfold scrape_seller_listings.
  rewrite (get_session_get _ _ _ _ Hget).
  assert (Hnone : ∃ len, 0 ≤ len ∧ 1 + len ≤ (t + 24) / 25 ∧ (t = 30 → len ≤ 1)
            ∧ requested n ++ [strip_query base_url]
              = requested n ++ strip_query base_url
                  :: (page_url (strip_query base_url) <$> seqZ 2 len)).
  { exists 0. split_and!; [lia | lia | lia | done]. }
  destruct (raise_for_status resp) as [[]|e]; [|by split].
  destruct (parse_listing_links (text resp)) as [links|e]; [|by split].
  rewrite Hcount, Hnp. split.
  - match goal with |- context [pages_loop fuel ?b ?np ?p ?a ?m] =>
      destruct (pages_loop_requested fuel b np p a m) as (len & _ & -> & Hall)
    end.
    assert (Hlen : 1 + Z.of_nat len ≤ (t + 24) / 25).
    { destruct len as [|len]; [lia |].
      specialize (Hall (2 + Z.of_nat (S len) - 1) ltac:(lia)).
      apply past_last_page_Some in Hall; lia. }
    exists (Z.of_nat len). split_and!; [lia | done | |].
    + intros ->. change ((30 + 24) / 25) with 2 in Hlen. lia.
    + simpl. by rewrite <- app_assoc.
  - intros Hfuel. apply pages_loop_ends; lia.
Qed.


(** C7, as the code has it: when the request for the first page raises,
    or its answer has a status from 400 to 599, the call raises, after
    that one request, and returns nothing. *)
Theorem scrape_first_page_failure fuel base_url n r w e :
  session_get (strip_query base_url) (world n) = (r, w) →
  (r = Raise e
   ∨ ∃ resp, r = Ok resp ∧ 400 ≤ status_code resp < 600
             ∧ e = HTTPError (status_code resp)) →
  scrape_seller_listings fuel base_url n
  = (Raised e, {| world := w; requested := requested n ++ [strip_query base_url] |}).
Proof.
  intros Hget Hfail. unfold scrape_seller_listings.
  rewrite (get_session_get _ _ _ _ Hget).
  destruct Hfail as [->|(resp & -> & Hstatus & ->)]; [done |].
  unfold raise_for_status.
  destruct (Z.leb_spec 400 (status_code resp)); [|lia].
  destruct (Z.ltb_spec (status_code resp) 600); [done | lia].
Qed.



(** C10: a count that [extract_total_count] returns lies between 0 and
    99999; a count of 0 gives no expected page count, as the absence
    of a count does, and the run is then that of the loop without a
    bound, which never stops for the page number. *)
Theorem zero_count_is_no_count :
  (∀ html v, extract_total_count html = Some v → 0 ≤ v ≤ 99999)
  ∧ num_pages_of (Some 0) = None
  ∧ num_pages_of None = None
  ∧ (∀ page, past_last_page None page = false)
  ∧ (∀ fuel base_url n resp n1 links,
       get (strip_query base_url) n = (Ok resp, n1) →
       raise_for_status resp = Ok tt →
       parse_listing_links (text resp) = Ok links →
       extract_total_count (text resp) = Some 0
       ∨ extract_total_count (text resp) = None →
       scrape_seller_listings fuel base_url n
       = pages_loop fuel (strip_query base_url) None 2 links n1).
Proof.
  split_and!; [apply extract_total_count_range | done..|].
  intros fuel base_url n resp n1 links Hget Hstatus Hparse Hcount.
  unfold scrape_seller_listings. rewrite Hget, Hstatus, Hparse.
  by destruct Hcount as [-> | ->].
Qed.

End ScrapeClaims.

(** * The claims on sample sites *)

Section ScrapeExamples.
Import Mock.

(** C1 as stated fails: the first page announces 0 ads, the expected
    page count would be 0, and pages 2 and 3 are asked for. *)
Lemma scrape_count_zero_unbounded :
  extract_total_count (text (answer site_count_0 seller)) = Some 0
  ∧ (0 + 24) / 25 = 0
  ∧ scrape_seller_listings 5 seller (start site_count_0)
    = (Returned [ad_a; ad_b],
       after site_count_0 [seller; seller +:+ "?seite=2"; seller +:+ "?seite=3"]).
Proof. split_and!; vm_compute; reflexivity. Qed.

Lemma scrape_within_expected_pages_witness :
  ∃ len,
    0 ≤ len ∧ 1 + len ≤ (30 + 24) / 25
    ∧ (30 = 30 → len ≤ 1)
    ∧ requested (scrape_seller_listings 5 seller (start site_count_30)).2
      = requested (start site_count_30) ++ strip_query seller
          :: (page_url (strip_query seller) <$> seqZ 2 len).
Proof.
  apply (scrape_within_expected_pages 5 seller (start site_count_30)
           (answer site_count_30 seller) site_count_30 30).
  - vm_compute. reflexivity.
  - vm_compute. reflexivity.
  - done.
Defined.



Lemma scrape_first_page_failure_witness :
  scrape_seller_listings 5 seller (start site_page_1_down)
  = (Raised (HTTPError 503),
     {| world := site_page_1_down;
        requested := requested (start site_page_1_down) ++ [strip_query seller] |}).
Proof.
  apply (scrape_first_page_failure 5 seller (start site_page_1_down)
           (Ok (answer site_page_1_down seller))).
  - vm_compute. reflexivity.
  - right. exists (answer site_page_1_down seller).
    split_and!; [reflexivity | vm_compute; discriminate | reflexivity | reflexivity].
Defined.

(** C7 as stated fails: a first answer with status 304 is not a
    success, and the call goes on and returns the link of its body. *)
Lemma scrape_first_page_not_modified :
  status_code (answer site_page_1_not_modified seller) = 304
  ∧ is_success 304 = false
  ∧ scrape_seller_listings 5 seller (start site_page_1_not_modified)
    = (Returned [ad_a],
       after site_page_1_not_modified [seller; seller +:+ "?seite=2"]).
Proof. split_and!; vm_compute; reflexivity. Qed.


Lemma zero_count_is_no_count_witness :
  scrape_seller_listings 5 seller (start site_count_0)
  = pages_loop 5 (strip_query seller) None 2 [ad_a] (after site_count_0 [seller]).
Proof.
  apply (proj2 (proj2 (proj2 (proj2 zero_count_is_no_count)))
           5%nat seller (start site_count_0) (answer site_count_0 seller)).
  - vm_compute. reflexivity.
  - vm_compute. reflexivity.
  - vm_compute. reflexivity.
  - left. vm_compute. reflexivity.
Defined.

End ScrapeExamples.

(** * Part III: further properties of the code *)

(** * More about [scrape_seller_listings] *)

Section ScrapeMore.
Context `{Url.Ipaddress} `{Bs4} {World : Type} `{Requests World}
  {unicodedata : Url.Unicodedata}.

Lemma parse_listing_links_NoDup html links :
  parse_listing_links html = Ok links → NoDup links.
Proof.
  intros (urls & _ & ->)%parse_listing_links_Ok. apply NoDup_first_occurrences.
Qed.

Lemma NoDup_new_links_of acc links :
  NoDup acc → NoDup links → NoDup (acc ++ new_links_of acc links).
Proof.
  intros Hacc Hlinks. apply NoDup_app. split_and!; [done | |].
  - intros url Hin Hnew. apply elem_of_new_links_of in Hnew as [_ Hnin]. done.
  - unfold new_links_of. by apply NoDup_ListNoDup, List.NoDup_filter, NoDup_ListNoDup.
Qed.

(** when the body of the loop stops with a result, it is the collection
    it was given *)
Lemma loop_body_Stop_Returned base np page acc n links n' :
  loop_body base np page acc n = Stop (Returned links) n' → links = acc.
Proof.
  unfold loop_body.
  destruct (past_last_page np page); [by intros [= ->] |].
  destruct (get (page_url base page) n) as [[resp|e] n1]; [|done].
  destruct (negb (status_code resp =? 200)); [by intros [= ->] |].
  destruct (parse_listing_links (text resp)) as [ls|e]; [|done].
  destruct (new_links_of acc ls); [by intros [= ->] | done].
Qed.

(** what the loop returns keeps what it started from in front, and what
    it adds is new *)
Lemma pages_loop_Returned fuel base np page acc n links n' :
  pages_loop fuel base np page acc n = (Returned links, n') →
  (∃ rest, links = acc ++ rest) ∧ (NoDup acc → NoDup links).
Proof.
  revert page acc n; induction fuel as [|fuel IH]; intros page acc n; simpl; [done |].
  destruct (loop_body base np page acc n) as [acc' n1|o n1] eqn:Hbody.
  - intros Hrun. destruct (IH _ _ _ Hrun) as [[rest ->] Hnodup].
    apply loop_body_Next in Hbody
      as (_ & _ & resp & ls & _ & _ & Hparse & _ & ->).
    split.
    + exists (new_links_of acc ls ++ rest). by rewrite app_assoc.
    + intros Hacc. apply Hnodup, NoDup_new_links_of; [done |].
      by apply (parse_listing_links_NoDup (text resp)).
  - intros [= -> <-]. apply loop_body_Stop_Returned in Hbody as ->.
    split; [exists []; by rewrite app_nil_r | done].
Qed.

(** X1: a list that [scrape_seller_listings] returns has no duplicates. *)
Theorem scrape_returns_no_duplicates fuel base_url n links n' :
  scrape_seller_listings fuel base_url n = (Returned links, n') →
  NoDup links.
Proof.
  unfold scrape_seller_listings.
  destruct (get (strip_query base_url) n) as [[resp|e] n1]; [|done].
  destruct (raise_for_status resp) as [[]|e]; [|done].
  destruct (parse_listing_links (text resp)) as [links1|e] eqn:Hparse; [|done].
  intros Hrun. apply pages_loop_Returned in Hrun as [_ Hnodup].
  by apply Hnodup, (parse_listing_links_NoDup (text resp)).
Qed.

(** X2: a list that [scrape_seller_listings] returns starts with the links
    of the first page, in their order. *)
Theorem scrape_returns_first_page_first fuel base_url n links n' :
  scrape_seller_listings fuel base_url n = (Returned links, n') →
  ∃ resp n1 links1 rest,
    get (strip_query base_url) n = (Ok resp, n1)
    ∧ parse_listing_links (text resp) = Ok links1
    ∧ links = links1 ++ rest.
Proof.
  unfold scrape_seller_listings.
  destruct (get (strip_query base_url) n) as [[resp|e] n1]; [|done].
  destruct (raise_for_status resp) as [[]|e]; [|done].
  destruct (parse_listing_links (text resp)) as [links1|e] eqn:Hparse; [|done].
  intros Hrun. apply pages_loop_Returned in Hrun as [[rest ->] _].
  by exists resp, n1, links1, rest.
Qed.

(** X3: whatever the answers, the requests of a call are the stripped
    URL and then the pages 2, 3, ... without a gap, one per turn of the
    loop at most. *)
Theorem scrape_requests_consecutive_pages fuel base_url n :
  ∃ len : nat,
    (len ≤ fuel)%nat
    ∧ requested (scrape_seller_listings fuel base_url n).2
      = requested n ++ strip_query base_url
          :: (page_url (strip_query base_url) <$> seqZ 2 (Z.of_nat len)).
Proof.
  unfold scrape_seller_listings.
  destruct (get (strip_query base_url) n) as [r n1] eqn:Hget.
  apply get_requested in Hget.
  assert (Hone : ∃ len : nat, (len ≤ fuel)%nat
            ∧ requested n1 = requested n ++ strip_query base_url
                :: (page_url (strip_query base_url) <$> seqZ 2 (Z.of_nat len))).
  { exists O. split; [lia | done]. }
  destruct r as [resp|e]; [|done].
  destruct (raise_for_status resp) as [[]|e]; [|done].
  destruct (parse_listing_links (text resp)) as [links1|e]; [|done].
  match goal with |- context [pages_loop fuel ?b ?np ?p ?a ?m] =>
    destruct (pages_loop_requested fuel b np p a m) as (len & Hlen & -> & _)
  end.
  exists len. split; [done |]. rewrite Hget, <- app_assoc. done.
Qed.

(** X4: an exception on a later page is not a silent stop: when the
    request for the page at the top of the loop raises, or its body
    cannot be parsed, the call raises and the collection is lost. *)
Theorem scrape_later_page_exception
  base_url n0 num_pages page all_links n r w e fuel :
  at_loop_head base_url n0 num_pages page all_links n →
  past_last_page num_pages page = false →
  session_get (page_url (strip_query base_url) page) (world n) = (r, w) →
  (r = Raise e
   ∨ ∃ resp, r = Ok resp ∧ status_code resp = 200
             ∧ parse_listing_links (text resp) = Raise e) →
  (Z.to_nat (page - 1) ≤ fuel)%nat →
  scrape_seller_listings fuel base_url n0
  = (Raised e,
     {| world := w;
        requested := requested n ++ [page_url (strip_query base_url) page] |}).
Proof.
  intros Hhead Hpast Hget Hfail Hfuel.
  apply (at_loop_head_stop _ _ _ _ _ _ _ _ _ Hhead); [|done].
  unfold loop_body. rewrite Hpast, (get_session_get _ _ _ _ Hget).
  destruct Hfail as [->|(resp & -> & H200 & Hparse)]; [done |].
  by rewrite H200, Hparse.
Qed.

(** an expected page count is between 1 and 4000 *)
Lemma num_pages_of_extract_range html K :
  num_pages_of (extract_total_count html) = Some K → 1 ≤ K ≤ 4000.
Proof.
  destruct (extract_total_count html) as [t|] eqn:Hcount; [|done].
  apply extract_total_count_range in Hcount. unfold num_pages_of.
  destruct (Z.eqb_spec t 0); [done |].
  rewrite math_ceil_div_25 by lia. intros [= <-]. split.
  - apply Z.div_le_lower_bound; lia.
  - assert ((t + 24) / 25 < 4001) by (apply Z.div_lt_upper_bound; lia). lia.
Qed.

(** the loop is never more than one page past the expected page count *)
Lemma at_loop_head_within_count base n0 np page acc n K :
  at_loop_head base n0 np page acc n → np = Some K → 1 ≤ K ∧ page ≤ K + 1.
Proof.
  induction 1 as [resp n1 links Hget Hstatus Hparse
                 |np page acc n acc' n' Hhead IH Hbody]; intros HK.
  - apply num_pages_of_extract_range in HK. lia.
  - destruct (IH HK) as [HK1 _]. subst np.
    apply loop_body_Next in Hbody as (Hpast & _).
    apply past_last_page_Some in Hpast; lia.
Qed.

(** X5: the count stops the loop without a request: when the page at the
    top of the loop is past the expected page count, the call returns
    the collection and asks for nothing more; the pages asked for are
    then exactly as many as expected. *)
Theorem scrape_stops_past_expected_pages
  base_url n0 num_pages page all_links n fuel :
  at_loop_head base_url n0 num_pages page all_links n →
  past_last_page num_pages page = true →
  (Z.to_nat (page - 1) ≤ fuel)%nat →
  scrape_seller_listings fuel base_url n0 = (Returned all_links, n)
  ∧ num_pages = Some (page - 1)
  ∧ requested n
    = requested n0 ++ strip_query base_url
        :: (page_url (strip_query base_url) <$> seqZ 2 (page - 2)).
Proof.
  intros Hhead Hpast Hfuel.
  destruct (at_loop_head_run _ _ _ _ _ _ Hhead) as (Hpage & Hreq & _).
  split_and!; [| |done].
  - apply (at_loop_head_stop _ _ _ _ _ _ _ _ _ Hhead); [|done].
    unfold loop_body. by rewrite Hpast.
  - destruct num_pages as [K|]; [|done]. f_equal.
    destruct (at_loop_head_within_count _ _ _ _ _ _ K Hhead eq_refl) as [HK1 HKp].
    unfold past_last_page in Hpast. apply andb_prop in Hpast as [_ HKlt].
    apply Z.ltb_lt in HKlt. lia.
Qed.

(** X6: a seller with at most 25 ads costs one request: when the first
    page announces a count from 1 to 25, the call returns the links of
    that page and asks for no other page. *)
Theorem scrape_single_page fuel base_url n resp n1 links t :
  get (strip_query base_url) n = (Ok resp, n1) →
  raise_for_status resp = Ok tt →
  parse_listing_links (text resp) = Ok links →
  extract_total_count (text resp) = Some t →
  1 ≤ t ≤ 25 →
  (1 ≤ fuel)%nat →
  scrape_seller_listings fuel base_url n = (Returned links, n1)
  ∧ requested n1 = requested n ++ [strip_query base_url].
Proof.
  intros Hget Hstatus Hparse Hcount Ht Hfuel.
  split; [|by apply (get_requested _ _ _ _ Hget)].
  unfold scrape_seller_listings. rewrite Hget, Hstatus, Hparse, Hcount.
  rewrite num_pages_of_positive by lia.
  assert ((t + 24) / 25 = 1) as ->.
  { symmetry. apply Z.div_unique with (r := t - 1); lia. }
  destruct fuel as [|fuel]; [lia |]. reflexivity.
Qed.

End ScrapeMore.

(** * More about [extract_total_count] *)

Section CountMore.
Import Re StrFacts ReFacts.

Lemma is_space_not_digit c : Str.is_space c = true → Str.is_digit c = false.
Proof.
  unfold Str.is_space, Str.is_digit, Str.between.
  intros Hs. apply andb_false_iff.
  repeat (apply orb_prop in Hs as [Hs|Hs]).
  - apply andb_prop in Hs as [_ Hs]. apply Nat.leb_le in Hs.
    left. apply Nat.leb_gt. lia.
  - apply andb_prop in Hs as [_ Hs]. apply Nat.leb_le in Hs.
    left. apply Nat.leb_gt. lia.
  - apply Nat.eqb_eq in Hs. right. apply Nat.leb_gt. lia.
  - apply Nat.eqb_eq in Hs. right. apply Nat.leb_gt. lia.
Qed.

(** the digits before a character that is not a digit are determined *)
Lemma digit_run_unique d d' c r c' r' :
  Str.forallb Str.is_digit d = true → Str.forallb Str.is_digit d' = true →
  Str.is_digit c = false → Str.is_digit c' = false →
  d +:+ String c r = d' +:+ String c' r' → d = d'.
Proof.
  revert d'; induction d as [|x d IH]; intros [|x' d'] Hd Hd' Hc Hc'; simpl.
  - done.
  - intros [= -> _]. simpl in Hd'. apply andb_prop in Hd' as [Hx _]. congruence.
  - intros [= -> _]. simpl in Hd. apply andb_prop in Hd as [Hx _]. congruence.
  - intros [= -> Heq]. simpl in Hd, Hd'.
    apply andb_prop in Hd as [_ Hd]. apply andb_prop in Hd' as [_ Hd'].
    f_equal. by apply IH.
Qed.

Lemma search_here r s groups :
  match_here r s = Some groups → search r s = Some groups.
Proof. intros Hm. destruct s; simpl; by rewrite Hm. Qed.

(** the phrase at the start of a text gives its number *)
Lemma extract_total_count_at_start digits ws1 ws2 post :
  Str.forallb Str.is_digit digits = true →
  (1 ≤ String.length digits ≤ 5)%nat →
  Str.forallb Str.is_space ws1 = true → ws1 ≠ "" →
  Str.forallb Str.is_space ws2 = true → ws2 ≠ "" →
  extract_total_count
    (digits +:+ ws1 +:+ "Anzeigen" +:+ ws2 +:+ "online" +:+ post)
  = int_of_str digits.
Proof.
  intros Hd Hlen Hw1 Hw1n Hw2 Hw2n.
  set (s := digits +:+ ws1 +:+ "Anzeigen" +:+ ws2 +:+ "online" +:+ post).
  assert (Hphrase : count_phrase_at_start s)
    by (exists digits, ws1, ws2, post; split_and!; (done || lia)).
  apply count_phrase_matches in Hphrase as [groups Hm].
  apply match_here_complete in Hm as [found Hfound].
  unfold extract_total_count. rewrite (search_here _ _ _ Hfound).
  apply match_here_sound, count_pattern_matches_inv in Hfound
    as (digits' & ws1' & ws2' & post' & -> & Hs & Hd' & _ & Hw1' & Hw1n' & _).
  destruct ws1 as [|c r]; [done |]. destruct ws1' as [|c' r']; [done |].
  simpl in Hw1, Hw1'.
  apply andb_prop in Hw1 as [Hc _]. apply andb_prop in Hw1' as [Hc' _].
  unfold s in Hs. simpl in Hs.
  by rewrite (digit_run_unique _ _ _ _ _ _ Hd' Hd
                (is_space_not_digit _ Hc') (is_space_not_digit _ Hc) (eq_sym Hs)).
Qed.

(** X7: [extract_total_count] gives the number of the leftmost count
    phrase: on a text in which the phrase [digits ws1 Anzeigen ws2
    online] stands with no count phrase starting before it, the result
    is the decimal value of [digits], leading zeros included. *)
Theorem extract_total_count_value pre digits ws1 ws2 post :
  Str.forallb Str.is_digit digits = true →
  (1 ≤ String.length digits ≤ 5)%nat →
  Str.forallb Str.is_space ws1 = true → ws1 ≠ "" →
  Str.forallb Str.is_space ws2 = true → ws2 ≠ "" →
  (∀ a b, pre = a +:+ b → b ≠ "" →
          ¬ count_phrase_at_start
              (b +:+ digits +:+ ws1 +:+ "Anzeigen" +:+ ws2 +:+ "online" +:+ post)) →
  ∃ v,
    extract_total_count
      (pre +:+ digits +:+ ws1 +:+ "Anzeigen" +:+ ws2 +:+ "online" +:+ post) = Some v
    ∧ int_digits 0 digits = Some v
    ∧ 0 ≤ v < 10 ^ Z.of_nat (String.length digits).
Proof.
  intros Hd Hlen Hw1 Hw1n Hw2 Hw2n Hleft.
  rewrite extract_total_count_skip by done.
  rewrite extract_total_count_at_start by done.
  destruct (int_digits_range digits 0 Hd) as (v & Hv & Hrange).
  exists v. split_and!; [|by rewrite Hv | lia | lia].
  destruct digits; simpl in *; [lia |]. by rewrite Hv.
Qed.

Lemma extract_total_count_value_witness :
  ∃ v,
    extract_total_count
      ("<span>" +:+ "007" +:+ String "010"%char " " +:+ "Anzeigen"
       +:+ "  " +:+ "online" +:+ "</span>") = Some v
    ∧ int_digits 0 "007" = Some v
    ∧ 0 ≤ v < 10 ^ Z.of_nat (String.length "007").
Proof.
  apply (extract_total_count_value "<span>" "007" (String "010"%char " ") "  " "</span>");
    try reflexivity; try done; try (simpl; lia).
  by apply no_digit_no_count_phrase.
Defined.

End CountMore.

(** * More about the URLs requested *)

Section StripQuery.

(** the first part of a split ends where the first separator stands *)
Lemma split_hd_prefix c s :
  Str.mem c (List.hd "" (Str.split c s)) = false
  ∧ (s = List.hd "" (Str.split c s)
     ∨ ∃ rest, s = List.hd "" (Str.split c s) +:+ String c rest).
Proof.
  induction s as [|d s IH]; simpl.
  - split; [done | by left].
  - destruct (Ascii.eqb_spec d c) as [->|Hne].
    + simpl. split; [done |]. right. by exists s.
    + destruct IH as (Hmem & Hs).
      assert (Hcd : Ascii.eqb c d = false)
        by (destruct (Ascii.eqb_spec c d); [congruence | done]).
      destruct (Str.split c s) as [|w ws]; simpl in *; rewrite Hcd; (split; [done |]).
      * destruct Hs as [->|[rest ->]]; [by left |]. right. by exists rest.
      * destruct Hs as [Hs|[rest Hs]]; [left | right; exists rest]; by rewrite Hs at 1.
Qed.

Lemma mem_append_sep c before rest :
  Str.mem c (before +:+ String c rest) = true.
Proof.
  induction before as [|d before IH]; simpl.
  - by rewrite Ascii.eqb_refl.
  - rewrite IH. apply orb_true_r.
Qed.

Lemma split_hd_cut c before rest :
  Str.mem c before = false →
  List.hd "" (Str.split c (before +:+ String c rest)) = before.
Proof.
  induction before as [|d before IH]; simpl.
  - by rewrite Ascii.eqb_refl.
  - intros [Hcd Hmem]%orb_false_elim. rewrite (Ascii.eqb_sym d c), Hcd.
    specialize (IH Hmem).
    destruct (Str.split c (before +:+ String c rest)) as [|w ws]; simpl in *;
      by rewrite IH.
Qed.

(** X8: the URL that is requested has no query.  [strip_query] cuts the
    seller URL at its first [?]: what it gives has no [?], and the seller
    URL is that text, or that text, a [?] and the rest; so it is the one
    text before the first [?].  A URL without [?] stays as it is, and
    stripping twice is stripping once. *)
Theorem strip_query_no_query base_url :
  Str.mem "?"%char (strip_query base_url) = false
  ∧ (base_url = strip_query base_url
     ∨ ∃ query, base_url = strip_query base_url +:+ String "?"%char query)
  ∧ (∀ before query,
       Str.mem "?"%char before = false →
       base_url = before +:+ String "?"%char query →
       strip_query base_url = before)
  ∧ (Str.mem "?"%char base_url = false → strip_query base_url = base_url)
  ∧ strip_query (strip_query base_url) = strip_query base_url.
Proof.
  assert (Hno : Str.mem "?"%char (strip_query base_url) = false).
  { unfold strip_query. destruct (Str.mem "?"%char base_url) eqn:Hmem; [|done].
    by destruct (split_hd_prefix "?"%char base_url) as [Hm _]. }
  split_and!; [done | | | |].
  - unfold strip_query. destruct (Str.mem "?"%char base_url); [|by left].
    by destruct (split_hd_prefix "?"%char base_url) as [_ Hs].
  - intros before query Hbefore ->. unfold strip_query.
    rewrite mem_append_sep. by apply split_hd_cut.
  - unfold strip_query. by intros ->.
  - unfold strip_query at 1. by rewrite Hno.
Qed.

End StripQuery.

(** * More about [create_download_file] *)

Section ExportMore.
Context `{Export}.











End ExportMore.

(** * More about [urljoin] and [parse_listing_links] *)

Section UrlMore.
Context `{Url.Ipaddress} {unicodedata : Url.Unicodedata}.

Lemma remove_absent c s : Str.mem c s = false → Str.remove c s = s.
Proof.
  induction s as [|d s IH]; simpl; [done |].
  destruct (Ascii.eqb c d); [done |]. simpl. intros Hm. by rewrite IH.
Qed.

Lemma partition_absent c s : Str.mem c s = false → Str.partition c s = (s, None).
Proof.
  induction s as [|d s IH]; simpl; [done |].
  rewrite (Ascii.eqb_sym d c). destruct (Ascii.eqb c d); [done |]. simpl.
  intros Hm. by rewrite IH.
Qed.

Lemma plain_path_inv href :
  plain_path href = true →
  (∃ rest, href = String "/"%char rest)
  ∧ String.prefix "//" href = false
  ∧ Str.mem "009"%char href = false ∧ Str.mem "010"%char href = false
  ∧ Str.mem "013"%char href = false
  ∧ Str.mem ";"%char href = false ∧ Str.mem "?"%char href = false
  ∧ Str.mem "#"%char href = false
  ∧ List.forallb (λ seg, negb (String.eqb seg ".") && negb (String.eqb seg ".."))
      (Str.split "/"%char href) = true.
Proof.
  unfold plain_path. rewrite !andb_true_iff, !negb_true_iff.
  intros ((((((((Hslash & H2) & Ht) & Hn) & Hr) & Hsemi) & Hq) & Hh) & Hseg).
  split_and!; try done.
  destruct href as [|c rest]; [done |]. cbn [String.prefix] in Hslash.
  destruct (ascii_dec "/" c) as [<-|]; [by exists rest | done].
Qed.

Lemma urlsplit_plain href :
  plain_path href = true →
  Url.urlsplit href "https"
  = Ok {| Url.s_scheme := "https"; Url.s_netloc := ""; Url.s_path := href;
          Url.s_query := ""; Url.s_fragment := "" |}.
Proof.
  intros ([rest ->] & H2 & Ht & Hn & Hr & Hsemi & Hq & Hh & _)%plain_path_inv.
  unfold Url.urlsplit.
  change (Str.lstrip Url.c0_control_or_space (String "/" rest)) with (String "/"%char rest).
  change (Url.remove_unsafe (Str.strip Url.c0_control_or_space "https")) with "https".
  unfold Url.remove_unsafe.
  rewrite (remove_absent "009"%char) by done.
  rewrite (remove_absent "013"%char) by done.
  rewrite (remove_absent "010"%char) by done.
  assert (Hscheme :
    match Str.find ":"%char (String "/" rest), String "/"%char rest with
    | Some (S i), String c0 _ =>
        if Str.is_ascii_alpha c0
           && Str.forallb Url.scheme_chars (Str.take (S i) (String "/" rest))
        then (Str.lower (Str.take (S i) (String "/" rest)),
              Str.drop (S (S i)) (String "/" rest))
        else ("https", String "/"%char rest)
    | _, _ => ("https", String "/"%char rest)
    end = ("https", String "/"%char rest)).
  { by destruct (Str.find ":"%char (String "/" rest)) as [[|i]|]. }
  rewrite Hscheme, H2. simpl.
  rewrite (partition_absent "#"%char) by done.
  by rewrite (partition_absent "?"%char) by done.
Qed.

Lemma urlparse_plain href :
  plain_path href = true →
  Url.urlparse href "https"
  = Ok {| Url.scheme := "https"; Url.netloc := ""; Url.path := href;
          Url.params := ""; Url.query := ""; Url.fragment := "" |}.
Proof.
  intros Hplain. unfold Url.urlparse. rewrite (urlsplit_plain _ Hplain). simpl.
  apply plain_path_inv in Hplain as (_ & _ & _ & _ & _ & Hsemi & _).
  by rewrite Hsemi.
Qed.

Lemma resolve_segments_plain segments resolved :
  List.forallb (λ seg, negb (String.eqb seg ".") && negb (String.eqb seg ".."))
    segments = true →
  Url.resolve_segments segments resolved = resolved ++ segments.
Proof.
  revert resolved; induction segments as [|seg segments IH]; intros resolved; simpl.
  - by rewrite app_nil_r.
  - rewrite !andb_true_iff, !negb_true_iff. intros [[Hdot Hdots] Hall].
    rewrite Hdots, Hdot, IH by done. by rewrite <- app_assoc.
Qed.

Lemma join_split c s : Str.join (String c "") (Str.split c s) = s.
Proof.
  induction s as [|d s IH]; simpl; [done |].
  destruct (Ascii.eqb_spec d c) as [->|Hne].
  - destruct (Str.split c s) as [|w ws] eqn:Hsplit; simpl in *.
    + by destruct s; simpl in *; [|destruct (Ascii.eqb _ _), (Str.split c _)].
    + by rewrite IH.
  - destruct (Str.split c s) as [|w ws] eqn:Hsplit; simpl in *.
    + by rewrite <- IH.
    + destruct ws; simpl in *; by rewrite <- IH.
Qed.

Lemma split_nonempty c s : Str.split c s ≠ [].
Proof.
  destruct s as [|d s]; simpl; [done |].
  destruct (Ascii.eqb d c); [done |]. by destruct (Str.split c s).
Qed.

Lemma forallb_last {A} (p : A → bool) (l : list A) (d : A) :
  l ≠ [] → List.forallb p l = true → p (List.last l d) = true.
Proof.
  induction l as [|x l IH]; [done |]. intros _. simpl.
  rewrite andb_true_iff. intros [Hx Hl].
  destruct l as [|y l]; [done |]. by apply IH.
Qed.

Lemma contains_append sub p s :
  Str.contains sub s = true → Str.contains sub (p +:+ s) = true.
Proof.
  intros Hs. induction p as [|c p IH]; [done |].
  change (String c p +:+ s) with (String c (p +:+ s)).
  cbn [Str.contains]. rewrite IH. apply orb_true_r.
Qed.

Lemma urljoin_origin_plain href :
  plain_path href = true →
  Url.urljoin origin href = Ok (origin +:+ href).
Proof.
  intros Hplain. pose proof (urlparse_plain _ Hplain) as Hparse.
  apply plain_path_inv in Hplain as ([rest ->] & _ & _ & _ & _ & _ & _ & _ & Hseg).
  unfold Url.urljoin.
  change (Url.nonempty origin) with true.
  change (Url.nonempty (String "/" rest)) with true. cbn [negb].
  change (Url.urlparse origin "")
    with (Ok {| Url.scheme := "https"; Url.netloc := "www.kleinanzeigen.de";
                Url.path := ""; Url.params := ""; Url.query := "";
                Url.fragment := "" |}).
  cbn [mbind result_bind Url.scheme Url.netloc Url.path Url.params Url.query Url.fragment].
  rewrite Hparse.
  cbn [mbind result_bind Url.scheme Url.netloc Url.path Url.params Url.query Url.fragment].
  change (String.eqb "https" "https") with true.
  change (Url.elem "https" Url.uses_relative) with true.
  change (Url.elem "https" Url.uses_netloc) with true.
  change (Url.nonempty "") with false.
  change (Url.nonempty (String "/" rest)) with true.
  cbn [negb andb orb].
  assert (Hpre : String.prefix "/" (String "/" rest) = true)
    by (cbn [String.prefix]; by destruct rest).
  rewrite Hpre.
  rewrite resolve_segments_plain by done. cbn [app].
  assert (Hlast : Url.elem (List.last (Str.split "/"%char (String "/" rest)) "")
                    ["."; ".."] = false).
  { pose proof (forallb_last _ _ "" (split_nonempty "/"%char (String "/" rest)) Hseg) as Hl.
    cbv beta in Hl. apply andb_prop in Hl as [Hdot Hdots].
    apply negb_true_iff in Hdot, Hdots. unfold Url.elem. cbn [existsb].
    by rewrite Hdot, Hdots. }
  rewrite Hlast, join_split.
  change (Url.nonempty (String "/" rest)) with true. cbn iota.
  unfold Url.urlunparse, Url.urlunsplit.
  cbn [Url.scheme Url.netloc Url.path Url.params Url.query Url.fragment].
  change (Url.nonempty "") with false.
  change (Url.nonempty "www.kleinanzeigen.de") with true.
  change (Url.nonempty "https") with true.
  change (Url.nonempty (String "/" rest)) with true.
  cbn [negb andb orb]. rewrite Hpre. reflexivity.
Qed.

(** X10: a plain path (one leading [/], none of the characters at which
    [urlsplit] cuts, no segment [.] or [..]) is joined to the origin as
    it is: the result is the origin followed by the path. *)
Theorem urljoin_plain_path href :
  plain_path href = true →
  Url.urljoin origin href = Ok (origin +:+ href)
  ∧ (Str.contains listing_marker href = true →
     Str.contains listing_marker (origin +:+ href) = true).
Proof.
  intros Hplain. split; [by apply urljoin_origin_plain |].
  apply (contains_append listing_marker origin href).
Qed.















Context `{Bs4}.



End UrlMore.

Section UrlExamples.
Import Mock.

Lemma urljoin_plain_path_witness :
  Url.urljoin origin "/s-anzeige/felgen-18-zoll/2801821674-223-8242"
  = Ok (origin +:+ "/s-anzeige/felgen-18-zoll/2801821674-223-8242")
  ∧ (Str.contains listing_marker "/s-anzeige/felgen-18-zoll/2801821674-223-8242" = true →
     Str.contains listing_marker
       (origin +:+ "/s-anzeige/felgen-18-zoll/2801821674-223-8242") = true).
Proof. apply urljoin_plain_path. reflexivity. Defined.



End UrlExamples.

(** * [main] *)

Section MainMore.
Context `{Url.Ipaddress} `{Bs4} `{Export} {World : Type} `{Requests World}
  {unicodedata : Url.Unicodedata}.
Import App.

Lemma nonempty_spec s : Url.nonempty s = true ↔ s ≠ "".
Proof.
  unfold Url.nonempty. destruct (String.eqb_spec s ""); simpl; split; (done || congruence).
Qed.

(** the calls of [main], path by path *)
Lemma main_cases fuel w n :
  (button w = false ∧ main fuel w n = (header, Returns, n))
  ∨ (button w = true ∧ url w = ""
     ∧ main fuel w n = (header ++ [Error Missing_url], Returns, n))
  ∨ (button w = true ∧ url w ≠ ""
     ∧ ∃ n',
         (scrape_seller_listings fuel (url w) n = (OutOfFuel, n')
          ∧ main fuel w n = (header ++ [Spinner], Unfinished, n'))
         ∨ (∃ e, scrape_seller_listings fuel (url w) n = (Raised e, n')
                 ∧ main fuel w n
                   = (header ++ [Spinner; Error (Fetch_failed e)], Returns, n'))
         ∨ (scrape_seller_listings fuel (url w) n = (Returned [], n')
            ∧ main fuel w n = (header ++ [Spinner; Warning No_listings], Returns, n'))
         ∨ (∃ links, links ≠ []
              ∧ scrape_seller_listings fuel (url w) n = (Returned links, n')
              ∧ ((∃ e, create_download_file links (file_type w) = Raise e
                       ∧ main fuel w n
                         = (header ++ [Spinner; Success (Links_found (length links))],
                            Escapes e, n'))
                 ∨ (∃ mime data,
                      create_download_file links (file_type w) = Ok (mime, data)
                      ∧ main fuel w n
                        = ((header ++ [Spinner; Success (Links_found (length links))])
                           ++ [Download_button
                                 (upper (file_type w) +:+ " herunterladen") data
                                 ("kleinanzeigen_links." +:+ file_type w) mime],
                           Returns, n'))))).
Proof.
  unfold main. destruct (button w); [|by left]. right.
  destruct (Url.nonempty (url w)) eqn:Hurl; cbn [negb].
  - right. split_and!; [done | by apply nonempty_spec |].
    destruct (scrape_seller_listings fuel (url w) n) as [[links|e|] n'].
    + exists n'. destruct links as [|link links].
      * right. right. by left.
      * do 3 right. exists (link :: links). split_and!; [done..|].
        destruct (create_download_file (link :: links) (file_type w))
          as [[mime data]|e]; [right; by exists mime, data | left; by exists e].
    + exists n'. right. left. by exists e.
    + exists n'. by left.
  - left. split_and!; [done | | done].
    destruct (String.eqb_spec (url w) ""); [done |].
    unfold Url.nonempty in Hurl. by destruct (String.eqb_spec (url w) "").
Qed.

(** X13: without the button, or without a URL, [main] asks for nothing:
    the world is as it was, nothing is offered for download, and [main]
    returns. *)
Theorem main_idle fuel w n :
  button w = false ∨ url w = "" →
  (main fuel w n).2 = n
  ∧ (main fuel w n).1.2 = Returns
  ∧ ∀ label data file_name mime,
      Download_button label data file_name mime ∉ (main fuel w n).1.1.
Proof.
  intros Hidle.
  destruct (main_cases fuel w n)
    as [[_ ->]|[(_ & _ & ->)|(Hb & Hu & _)]].
  - split_and!; [done..|]. intros ???? Hin.
    repeat (apply elem_of_cons in Hin as [[=]|Hin]). by apply elem_of_nil in Hin.
  - split_and!; [done..|]. intros ???? Hin.
    repeat (apply elem_of_cons in Hin as [[=]|Hin]). by apply elem_of_nil in Hin.
  - destruct Hidle; congruence.
Qed.

(** X14: a download is offered only after a scrape that returned links,
    and what is offered is what [create_download_file] made of them for
    the chosen format, under the name [kleinanzeigen_links.<format>]. *)
Theorem main_download_is_export fuel w n label data file_name mime :
  Download_button label data file_name mime ∈ (main fuel w n).1.1 →
  button w = true ∧ url w ≠ ""
  ∧ (main fuel w n).1.2 = Returns
  ∧ ∃ links,
      links ≠ []
      ∧ (scrape_seller_listings fuel (url w) n).1 = Returned links
      ∧ create_download_file links (file_type w) = Ok (mime, data)
      ∧ file_name = "kleinanzeigen_links." +:+ file_type w
      ∧ label = upper (file_type w) +:+ " herunterladen".
Proof.
  destruct (main_cases fuel w n)
    as [[_ ->]|[(_ & _ & ->)|(Hb & Hu & n' & Hcase)]]; simpl.
  - intros Hin.
    repeat (apply elem_of_cons in Hin as [[=]|Hin]). by apply elem_of_nil in Hin.
  - intros Hin.
    repeat (apply elem_of_cons in Hin as [[=]|Hin]). by apply elem_of_nil in Hin.
  - destruct Hcase as [[_ ->]|[(e & _ & ->)|[[_ ->]|(links & Hne & Hscrape & Hexport)]]];
      simpl.
    + intros Hin.
      repeat (apply elem_of_cons in Hin as [[=]|Hin]). by apply elem_of_nil in Hin.
    + intros Hin.
      repeat (apply elem_of_cons in Hin as [[=]|Hin]). by apply elem_of_nil in Hin.
    + intros Hin.
      repeat (apply elem_of_cons in Hin as [[=]|Hin]). by apply elem_of_nil in Hin.
    + destruct Hexport as [(e & _ & ->)|(mime' & data' & Hfile & ->)]; simpl.
      * intros Hin.
        repeat (apply elem_of_cons in Hin as [[=]|Hin]). by apply elem_of_nil in Hin.
      * intros Hin.
        repeat (apply elem_of_cons in Hin as [Heq|Hin]; [try discriminate Heq |]);
          [|by apply elem_of_nil in Hin].
        injection Heq as -> -> -> ->.
        split_and!; [done..|]. exists links. rewrite Hscrape. by split_and!.
Qed.

Lemma no_download_button (calls : list call) :
  Forall (λ c, match c with Download_button _ _ _ _ => False | _ => True end) calls →
  ∀ label data file_name mime, Download_button label data file_name mime ∉ calls.
Proof.
  intros Hall label data file_name mime Hin.
  by apply (proj1 (Forall_forall _ _) Hall) in Hin.
Qed.

(** X15: an exception leaves [main] exactly when the button was pressed
    on a URL, the scrape returned links and [create_download_file]
    raised on them, and it is the exception [create_download_file]
    raised; nothing is offered for download then.  Whatever the scrape
    raises does not leave [main]. *)
Theorem main_escapes_only_export fuel w n e :
  ((main fuel w n).1.2 = Escapes e
   ↔ button w = true ∧ url w ≠ ""
     ∧ ∃ links, links ≠ []
         ∧ (scrape_seller_listings fuel (url w) n).1 = Returned links
         ∧ create_download_file links (file_type w) = Raise e)
  ∧ ((main fuel w n).1.2 = Escapes e →
     ∀ label data file_name mime,
       Download_button label data file_name mime ∉ (main fuel w n).1.1)
  ∧ (∀ e', (scrape_seller_listings fuel (url w) n).1 = Raised e' →
           (main fuel w n).1.2 = Returns).
Proof.
  destruct (main_cases fuel w n)
    as [[Hb ->]|[(Hb & Hu & ->)|(Hb & Hu & n' & Hcase)]].
  - split_and!; [split; [simpl; intros [=] | intros (? & _); congruence] | | simpl; done].
    intros _. apply no_download_button. by repeat constructor.
  - split_and!; [split; [simpl; intros [=] | intros (_ & ? & _); congruence] | | simpl; done].
    intros _. apply no_download_button. by repeat constructor.
  - destruct Hcase
      as [[Hs ->]|[(e' & Hs & ->)|[[Hs ->]|(links & Hne & Hs & Hexport)]]].
    + split_and!; [split; [simpl; intros [=] |] | |].
      * intros (_ & _ & links & _ & Hret & _). rewrite Hs in Hret. done.
      * intros _. apply no_download_button. by repeat constructor.
      * intros e0 Hret. rewrite Hs in Hret. done.
    + split_and!; [split; [simpl; intros [=] |] | | simpl; done].
      * intros (_ & _ & links & _ & Hret & _). rewrite Hs in Hret. done.
      * intros _. apply no_download_button. by repeat constructor.
    + split_and!; [split; [simpl; intros [=] |] | | simpl; done].
      * intros (_ & _ & links & Hne & Hret & _). rewrite Hs in Hret.
        simpl in Hret. congruence.
      * intros _. apply no_download_button. by repeat constructor.
    + destruct Hexport as [(e' & Hraise & ->)|(mime & data & Hfile & ->)].
      * split_and!.
        -- split.
           ++ simpl. intros [= ->]. split_and!; [done..|].
              exists links. by rewrite Hs.
           ++ intros (_ & _ & links' & _ & Hret & Hraise'). rewrite Hs in Hret.
              simpl in Hret. injection Hret as <-. simpl. congruence.
        -- intros _. apply no_download_button. by repeat constructor.
        -- intros e0 Hret. rewrite Hs in Hret. done.
      * split_and!.
        -- split; [simpl; intros [=] |].
           intros (_ & _ & links' & _ & Hret & Hraise'). rewrite Hs in Hret.
           simpl in Hret. injection Hret as <-. congruence.
        -- simpl. intros [=].
        -- done.
Qed.

(** X16: a first page that cannot be had is shown as one error: when the
    button is pressed on a URL whose first request raises or is answered
    with a status from 400 to 599, [main] shows that error after the
    spinner, offers nothing, and returns after that one request. *)
Theorem main_shows_fetch_error fuel w n r world' e :
  button w = true → url w ≠ "" →
  session_get (strip_query (url w)) (world n) = (r, world') →
  (r = Raise e
   ∨ ∃ resp, r = Ok resp ∧ 400 ≤ status_code resp < 600
             ∧ e = HTTPError (status_code resp)) →
  main fuel w n
  = (header ++ [Spinner; Error (Fetch_failed e)], Returns,
     {| world := world';
        requested := requested n ++ [strip_query (url w)] |}).
Proof.
  intros Hb Hu Hget Hfail.
  assert (Hscrape : scrape_seller_listings fuel (url w) n
            = (Raised e, {| world := world';
                            requested := requested n ++ [strip_query (url w)] |})).
  { unfold scrape_seller_listings. rewrite (get_session_get _ _ _ _ Hget).
    destruct Hfail as [->|(resp & -> & Hstatus & ->)]; [done |].
    unfold raise_for_status.
    destruct (Z.leb_spec 400 (status_code resp)); [|lia].
    destruct (Z.ltb_spec (status_code resp) 600); [done | lia]. }
  unfold main. rewrite Hb, (proj2 (nonempty_spec _) Hu), Hscrape. done.
Qed.

End MainMore.

(** * The further properties on sample sites *)

Section MoreExamples.
Import Mock MoreMock App.

Lemma scrape_returns_no_duplicates_witness : NoDup [ad_a; ad_b; ad_c].
Proof.
  apply (scrape_returns_no_duplicates 5 seller (start site_three_pages) _
           (after site_three_pages
              [seller; seller +:+ "?seite=2"; seller +:+ "?seite=3"])).
  vm_compute. reflexivity.
Defined.

Lemma scrape_returns_first_page_first_witness :
  ∃ resp n1 links1 rest,
    get (strip_query seller) (start site_three_pages) = (Ok resp, n1)
    ∧ parse_listing_links (text resp) = Ok links1
    ∧ [ad_a; ad_b; ad_c] = links1 ++ rest.
Proof.
  apply (scrape_returns_first_page_first 5 seller (start site_three_pages) _
           (after site_three_pages
              [seller; seller +:+ "?seite=2"; seller +:+ "?seite=3"])).
  vm_compute. reflexivity.
Defined.

Lemma scrape_later_page_exception_witness :
  scrape_seller_listings 5 seller (start site_page_2_unreachable)
  = (Raised RequestException,
     {| world := site_page_2_unreachable;
        requested := requested (after site_page_2_unreachable [seller])
                     ++ [page_url (strip_query seller) 2] |}).
Proof.
  apply (scrape_later_page_exception seller (start site_page_2_unreachable)
           (num_pages_of
              (extract_total_count (text (answer site_page_2_unreachable seller))))
           2 [ad_a; ad_b] (after site_page_2_unreachable [seller])
           (Raise RequestException)).
  - apply (head_first seller (start site_page_2_unreachable)
             (answer site_page_2_unreachable seller)
             (after site_page_2_unreachable [seller]) [ad_a; ad_b]);
      vm_compute; reflexivity.
  - vm_compute. reflexivity.
  - vm_compute. reflexivity.
  - by left.
  - vm_compute. lia.
Defined.

Lemma at_loop_head_count_30 :
  at_loop_head seller (start site_count_30)
    (num_pages_of (extract_total_count (text (answer site_count_30 seller))))
    3 [ad_a; ad_b]
    (after site_count_30 [seller; seller +:+ "?seite=2"]).
Proof.
  change 3 with (2 + 1).
  apply (head_next _ _ _ 2 [ad_a] (after site_count_30 [seller])).
  - apply (head_first seller (start site_count_30)
             (answer site_count_30 seller)
             (after site_count_30 [seller]) [ad_a]);
      vm_compute; reflexivity.
  - vm_compute. reflexivity.
Qed.

Lemma scrape_stops_past_expected_pages_witness :
  scrape_seller_listings 5 seller (start site_count_30)
  = (Returned [ad_a; ad_b], after site_count_30 [seller; seller +:+ "?seite=2"])
  ∧ num_pages_of (extract_total_count (text (answer site_count_30 seller)))
    = Some (3 - 1)
  ∧ requested (after site_count_30 [seller; seller +:+ "?seite=2"])
    = requested (start site_count_30) ++ strip_query seller
        :: (page_url (strip_query seller) <$> seqZ 2 (3 - 2)).
Proof.
  apply (scrape_stops_past_expected_pages seller (start site_count_30) _ 3
           [ad_a; ad_b] _ 5 at_loop_head_count_30).
  - vm_compute. reflexivity.
  - vm_compute. lia.
Defined.

Lemma scrape_single_page_witness :
  scrape_seller_listings 5 seller (start site_count_12)
  = (Returned [ad_a], after site_count_12 [seller])
  ∧ requested (after site_count_12 [seller])
    = requested (start site_count_12) ++ [strip_query seller].
Proof.
  apply (scrape_single_page 5 seller (start site_count_12)
           (answer site_count_12 seller) (after site_count_12 [seller]) [ad_a] 12).
  - vm_compute. reflexivity.
  - vm_compute. reflexivity.
  - vm_compute. reflexivity.
  - vm_compute. reflexivity.
  - lia.
  - lia.
Defined.


Lemma main_idle_witness :
  (main 5 (pressed "" "txt") (start site_three_pages)).2 = start site_three_pages
  ∧ (main 5 (pressed "" "txt") (start site_three_pages)).1.2 = Returns
  ∧ ∀ label data file_name mime,
      Download_button label data file_name mime
      ∉ (main 5 (pressed "" "txt") (start site_three_pages)).1.1.
Proof. apply main_idle. by right. Defined.

Lemma main_download_is_export_witness :
  button (pressed seller "txt") = true ∧ url (pressed seller "txt") ≠ ""
  ∧ (main 5 (pressed seller "txt") (start site_three_pages)).1.2 = Returns
  ∧ ∃ links,
      links ≠ []
      ∧ (scrape_seller_listings 5 (url (pressed seller "txt"))
           (start site_three_pages)).1 = Returned links
      ∧ create_download_file links (file_type (pressed seller "txt"))
        = Ok (mime_txt,
              encode_utf8 (Str.join (String "010"%char "") [ad_a; ad_b; ad_c]))
      ∧ "kleinanzeigen_links.txt"
        = "kleinanzeigen_links." +:+ file_type (pressed seller "txt")
      ∧ "TXT herunterladen"
        = upper (file_type (pressed seller "txt")) +:+ " herunterladen".
Proof.
  apply (main_download_is_export 5 (pressed seller "txt") (start site_three_pages)).
  apply list_elem_of_In. vm_compute. do 5 right. left. reflexivity.
Defined.

Lemma main_escapes_only_export_witness :
  (main 5 (pressed seller "docx") (start site_three_pages)).1.2
  = Escapes (ImportError docx_missing_message)
  ∧ ∃ links, links ≠ []
      ∧ (scrape_seller_listings 5 (url (pressed seller "docx"))
           (start site_three_pages)).1 = Returned links
      ∧ create_download_file links (file_type (pressed seller "docx"))
        = Raise (ImportError docx_missing_message).
Proof.
  assert (Hescapes : (main 5 (pressed seller "docx") (start site_three_pages)).1.2
                     = Escapes (ImportError docx_missing_message))
    by (vm_compute; reflexivity).
  split; [exact Hescapes |].
  apply (main_escapes_only_export 5 (pressed seller "docx") (start site_three_pages))
    in Hescapes as (_ & _ & Hlinks).
  exact Hlinks.
Defined.

Lemma main_shows_fetch_error_witness :
  main 5 (pressed seller "csv") (start site_page_1_down)
  = (header ++ [Spinner; Error (Fetch_failed (HTTPError 503))], Returns,
     {| world := site_page_1_down;
        requested := requested (start site_page_1_down)
                     ++ [strip_query (url (pressed seller "csv"))] |}).
Proof.
  apply (main_shows_fetch_error 5 (pressed seller "csv") (start site_page_1_down)
           (Ok (answer site_page_1_down seller))).
  - reflexivity.
  - done.
  - vm_compute. reflexivity.
  - right. exists (answer site_page_1_down seller).
    split_and!; [reflexivity | vm_compute; discriminate | reflexivity | reflexivity].
Defined.

End MoreExamples.
